(** * usgs_data_analysis: the resumable tile pipelines of
      scripts/download_process_lidar

    A shallow embedding of the download, noise-filter and invalid-tile
    scripts: the progress record ([save_txt], [read_num_sample]), the worker
    [generate_and_execute_pipeline], the task filters of the two [__main__]
    blocks, the result collection [run_with_timeout], [filter_noise] and the
    tile corrector ([return_bigger_tile_mask], [check_invalid_and_correct]).

    Conventions.
    - Python [int] is [Z] and [str] is [string]; file names and records are
      ASCII.  [None] in an [option] result is the exception named next to
      the definition; an exception that reaches a handler is a value of
      [exn].
    - A directory is a finite map from entry names to file contents.  One
      tile's directory [join(save_root, name)] is a [tile_dir]: its regular
      files, the staging directory [temp_download] and the record file.
    - The PDAL engine is external: [pipeline.execute()] is a function from
      the stage list it is handed to the files it leaves in the staging
      directory and the count or exception it ends with.
    - The worker yields its return value, the directory as it leaves it, and
      the trace of engine calls, renames and record writes it made.
    - [async_result.get(timeout=...)] is described by its three outcomes;
      clocks and processes are not modelled.
    - Coordinates, float64 in the source, are exact rationals. *)

From Stdlib Require Import Ascii String ZArith QArith Qminmax Lqa DecimalString DecimalZ DecimalPos
  DecimalN.
From stdpp Require Import base tactics option list sorting strings gmap.

Local Open Scope string_scope.
Local Open Scope list_scope.
Local Open Scope Z_scope.

(** ** Python built-ins used by the scripts *)

(** [str.isspace] on ASCII, the set [s.strip()] removes: TAB..CR, FS..US
    and the space. *)
Definition py_isspace (c : ascii) : bool :=
  let n := Z.of_N (N_of_ascii c) in
  ((9 <=? n) && (n <=? 13)) || ((28 <=? n) && (n <=? 32)).

(** The whitespace [int()] skips around a literal: TAB..CR and the space. *)
Definition int_isspace (c : ascii) : bool :=
  let n := Z.of_N (N_of_ascii c) in
  ((9 <=? n) && (n <=? 13)) || (n =? 32).

Fixpoint lstrip (space : ascii → bool) (s : string) : string :=
  match s with
  | String c r => if space c then lstrip space r else s
  | EmptyString => EmptyString
  end.

Fixpoint rstrip (space : ascii → bool) (s : string) : string :=
  match s with
  | String c r =>
      match rstrip space r with
      | EmptyString => if space c then EmptyString else String c EmptyString
      | r' => String c r'
      end
  | EmptyString => EmptyString
  end.

(** [s.strip()] *)
Definition strip (s : string) : string := rstrip py_isspace (lstrip py_isspace s).

(** [s.split(sep)] for a one-character separator: never the empty list. *)
Fixpoint split (sep : ascii) (s : string) : list string :=
  match s with
  | EmptyString => [EmptyString]
  | String c r =>
      if Ascii.eqb c sep then EmptyString :: split sep r
      else match split sep r with
           | h :: t => String c h :: t
           | [] => [String c EmptyString]
           end
  end.

Definition is_digit (c : ascii) : bool :=
  let n := Z.of_N (N_of_ascii c) in (48 <=? n) && (n <=? 57).

(** The digit grouping of [int()]: one underscore is allowed between two
    digits and is dropped; [prev] tells whether the last character read was a
    digit.  Any other character is kept for the digit reader to reject. *)
Fixpoint drop_underscores (prev : bool) (s : string) : option string :=
  match s with
  | EmptyString => if prev then Some EmptyString else None
  | String c r =>
      if Ascii.eqb c "_" then
        if prev then drop_underscores false r else None
      else String c <$> drop_underscores (is_digit c) r
  end.

(** [int(s)] for a string: surrounding whitespace, an optional sign, decimal
    digits.  [None] stands for the [ValueError]. *)
Definition py_int (s : string) : option Z :=
  let body := rstrip int_isspace (lstrip int_isspace s) in
  let '(neg, digits) :=
    match body with
    | String c r =>
        if Ascii.eqb c "-" then (true, r)
        else if Ascii.eqb c "+" then (false, r)
        else (false, body)
    | EmptyString => (false, body)
    end in
  match drop_underscores false digits ≫= NilEmpty.uint_of_string with
  | Some Decimal.Nil | None => None
  | Some d => Some (if neg : bool then - Z.of_uint d else Z.of_uint d)
  end.

(** [f"{z}"] for an int. *)
Definition py_str (z : Z) : string := NilZero.string_of_int (Z.to_int z).

(** [l[i:j]] with Python's treatment of negative and out-of-range bounds. *)
Definition py_bound (n k : Z) : Z :=
  if k <? 0 then Z.max 0 (k + n) else Z.min k n.

Definition py_slice {A} (l : list A) (i j : Z) : list A :=
  let n := Z.of_nat (length l) in
  let a := py_bound n i in
  let b := py_bound n j in
  take (Z.to_nat (b - a)) (drop (Z.to_nat a) l).

(** [os.path.join(a, b)] on POSIX. *)
Definition join (a b : string) : string :=
  match b with
  | String "/" _ => b
  | _ =>
      match a with
      | EmptyString => b
      | _ => if String.eqb (String.substring (String.length a - 1) 1 a) "/"
             then a +:+ b else a +:+ "/" +:+ b
      end
  end.

Arguments join : simpl never.

(** [s.endswith(suffix)] *)
Definition endswith (s suffix : string) : bool :=
  let n := String.length s in
  let k := String.length suffix in
  (k <=? n)%nat && String.eqb (String.substring (n - k) k s) suffix.


(** ** Predicates on strings used in the statements *)

(** Every character of [s] satisfies [P]. *)
Fixpoint str_forall (P : ascii → bool) (s : string) : bool :=
  match s with
  | EmptyString => true
  | String c r => P c && str_forall P r
  end.

(** The characters of a printed integer. *)
Definition num_char (c : ascii) : bool := is_digit c || Ascii.eqb c "-".

(** ** Exceptions *)

Inductive exn_class :=
  | ValueError | IndexError | OSError | RuntimeError
  | LaspyException | LazrsError.

Record exn := Exn { exn_kind : exn_class; exn_msg : string }.

Global Instance exn_class_eq_dec : EqDecision exn_class.
Proof. solve_decision. Defined.

(** ** The progress record: log/num_sample-downloaded.txt *)

(** The text [f"{required},{num_downloaded}"]. *)
Definition record_text (required num_downloaded : Z) : string :=
  py_str required +:+ "," +:+ py_str num_downloaded.

(** [map(int, file.read().strip().split(","))] unpacked into two names;
    [None] is the [ValueError] of a record that is not two integers. *)
Definition parse_record (text : string) : option (Z * Z) :=
  match split "," (strip text) with
  | [a; b] => a' ← py_int a; b' ← py_int b; Some (a', b')
  | _ => None
  end.

(** A file is written through [open(file_path, "w")]: opening empties (or
    creates) the file, the text reaches it when the [with] block closes it. *)
Inductive file_op :=
  | OpenTruncate
  | WriteText (s : string).

Definition apply_file_op (file : option string) (op : file_op) : option string :=
  match op with
  | OpenTruncate => Some EmptyString
  | WriteText s => Some (default EmptyString file +:+ s)
  end.

(** The successive contents of a file under a list of operations. *)
Fixpoint file_states (file : option string) (ops : list file_op) : list (option string) :=
  match ops with
  | [] => []
  | op :: rest => let file' := apply_file_op file op in file' :: file_states file' rest
  end.

Module Download.

(** scripts/download_process_lidar/download/download_tiles_mp.py *)

Definition save_txt_ops (num_downloaded required : Z) : list file_op :=
  [OpenTruncate; WriteText (record_text required num_downloaded)].

Definition save_txt (num_downloaded required : Z) (file : option string) : option string :=
  foldl apply_file_op file (save_txt_ops num_downloaded required).

Definition read_num_sample (text : string) : option Z :=
  '(num_sample, num_downloaded) ← parse_record text; Some num_sample.

(** One row of the tile list: [geometry] is the list of the WKT texts of
    [geometry.geoms]; the multipolygon is empty when the list is. *)
Record sample_data := SampleData {
  url : string;
  local_epsg_code : string;
  geometry : list string;
}.

Definition multipolygon_to_wkt_list (multipolygon : list string) : list string :=
  multipolygon.

(** [url.split("/")[-2]]; [None] is the [IndexError]. *)
Definition url_name (u : string) : option string := reverse (split "/" u) !! 1%nat.

Record work_args := WorkArgs {
  index : Z;
  sample : sample_data;
  save_root : string;
  file_prefix : string;
  num_sample : Z;
}.

(** The fields of [json_template] that the worker fills in. *)
Record pipeline_json := PipelineJson {
  reader_polygon : list string;
  reader_filename : string;
  crop_polygon : list string;
  out_srs : string;
  writer_filename : string;
}.

(** What one [pipeline.execute()] does: the files it leaves in the directory
    of the writer's pattern, and the point count or the exception. *)
Record engine_run := EngineRun {
  written : gmap string string;
  returned : exn + Z;
}.

(** The directory [join(save_root, name)] of one tile: its regular files,
    the entries of [temp_download] when that directory exists, and the text
    of the progress record when the record file exists. *)
Record tile_dir := TileDir {
  dst_files : gmap string string;
  temp_download : option (gmap string string);
  log_file : option string;
}.

Definition empty_dir : tile_dir := TileDir ∅ None None.

Inductive event :=
  | EvExecute (p : pipeline_json)
  | EvRename (src dst : string)
  | EvSaveTxt (num_downloaded required : Z).

(** The worker's return value: a count, or the error message built from the
    index and the exception. *)
Inductive result :=
  | Count (n : Z)
  | ErrorMsg (index : Z) (e : exn).

(** [glob(join(dst_path, "*.laz"))]: the entries that end in [.laz] and are
    not hidden. *)
Definition matches_laz (name : string) : bool :=
  endswith name ".laz" && negb (String.prefix "." name).

Definition num_laz (dir : gmap string string) : Z :=
  Z.of_nat (size (filter (λ kv : string * string, matches_laz kv.1) dir)).

(** [int(filename.split(".")[0].split("_")[-1])] *)
Definition cur_id (filename : string) : option Z :=
  py_int (default EmptyString (last (split "_" (default EmptyString (head (split "." filename)))))).

Definition new_name (file_prefix : string) (new_id : Z) : string :=
  file_prefix +:+ "_" +:+ py_str new_id +:+ ".laz".

(** The loop over [filenames_temp]: [os.rename] replaces an existing
    destination (POSIX).  The first component is the exception that ended
    the loop, if any. *)
Fixpoint move_files (file_prefix : string) (prev_num_sample : Z)
    (dst_path dst_path_temp : string) (filenames_temp : list string)
    (dst temp : gmap string string)
    : option exn * gmap string string * gmap string string * list event :=
  match filenames_temp with
  | [] => (None, dst, temp, [])
  | filename :: rest =>
      match cur_id filename with
      | None => (Some (Exn ValueError "invalid literal for int()"), dst, temp, [])
      | Some id =>
          let name' := new_name file_prefix (prev_num_sample + id) in
          match temp !! filename with
          | None => (Some (Exn OSError "No such file or directory"), dst, temp, [])
          | Some data =>
              let '(e, dst', temp', tr) :=
                move_files file_prefix prev_num_sample dst_path dst_path_temp rest
                  (<[name' := data]> dst) (delete filename temp) in
              (e, dst', temp',
               EvRename (join dst_path_temp filename) (join dst_path name') :: tr)
          end
      end
  end.

(** The block "Update pipeline JSON": the reader and the crop stage get the
    same slice of the polygons. *)
Definition update_pipeline (sample_data : sample_data) (polygons_str : list string)
    (prev_num_sample num_sample : Z) (dst_path_temp file_prefix : string) : pipeline_json :=
  {| reader_polygon := py_slice polygons_str prev_num_sample num_sample;
     reader_filename := url sample_data;
     crop_polygon := py_slice polygons_str prev_num_sample num_sample;
     out_srs := "EPSG:" +:+ local_epsg_code sample_data;
     writer_filename := join dst_path_temp file_prefix +:+ "_#.laz" |}.

(** [sorted(os.listdir(dst_path_temp))] *)
Definition sorted_listdir (dir : gmap string string) : list string :=
  merge_sort String.le (elements (dom dir)).

(** ** Names for parts of the worker used in the statements *)

(** The destination name a staged file is moved to. *)
Definition dest_of (file_prefix : string) (prev : Z) (filename : string) : string :=
  new_name file_prefix (prev + default 0 (cur_id filename)).

Definition is_rename (ev : event) : Prop :=
  match ev with EvRename _ _ => True | _ => False end.

(** The resume offset the worker computes: the first field of the record,
    0 without a record file, [None] when the read raises. *)
Definition prev_of (dir : tile_dir) : option Z :=
  match log_file dir with
  | Some text => read_num_sample text
  | None => Some 0
  end.

(** The three components of what the worker yields. *)
Definition after (x : result * tile_dir * list event) : tile_dir := x.1.2.
Definition events (x : result * tile_dir * list event) : list event := x.2.
Definition outcome (x : result * tile_dir * list event) : result := x.1.1.

Section Worker.

Variable engine : pipeline_json → engine_run.

Definition generate_and_execute_pipeline (args_list : work_args) (dir : tile_dir)
    : result * tile_dir * list event :=
  let index := index args_list in
  let sample_data := sample args_list in
  let num_sample := num_sample args_list in
  let file_prefix := file_prefix args_list in
  match url_name (url sample_data) with
  | None => (ErrorMsg index (Exn IndexError "list index out of range"), dir, [])
  | Some name =>
      let polygons_str := multipolygon_to_wkt_list (geometry sample_data) in
      let dst_path := join (save_root args_list) name in
      match match log_file dir with
            | Some text => read_num_sample text
            | None => Some 0
            end with
      | None => (ErrorMsg index (Exn ValueError "bad progress record"), dir, [])
      | Some prev_num_sample =>
          if prev_num_sample >=? num_sample then (Count 0, dir, [])
          else
            let dst_path_temp := join dst_path "temp_download" in
            let temp0 := default ∅ (temp_download dir) in
            let pipeline_json :=
              update_pipeline sample_data polygons_str prev_num_sample num_sample
                dst_path_temp file_prefix in
            let run := engine pipeline_json in
            let temp1 := written run ∪ temp0 in
            match returned run with
            | inl e =>
                (ErrorMsg index e,
                 TileDir (dst_files dir) (Some temp1) (log_file dir),
                 [EvExecute pipeline_json])
            | inr count =>
                let filenames_temp := sorted_listdir temp1 in
                match filenames_temp with
                | [] =>
                    let num_downloaded := num_laz (dst_files dir) in
                    (Count 0,
                     TileDir (dst_files dir) (Some temp1)
                       (save_txt num_downloaded num_sample (log_file dir)),
                     [EvExecute pipeline_json; EvSaveTxt num_downloaded num_sample])
                | _ =>
                    match move_files file_prefix prev_num_sample dst_path dst_path_temp
                            filenames_temp (dst_files dir) temp1 with
                    | (Some e, dst', temp', tr) =>
                        (ErrorMsg index e, TileDir dst' (Some temp') (log_file dir),
                         EvExecute pipeline_json :: tr)
                    | (None, dst', temp', tr) =>
                        let num_downloaded := num_laz dst' in
                        (Count count,
                         TileDir dst' (Some temp')
                           (save_txt num_downloaded num_sample (log_file dir)),
                         EvExecute pipeline_json :: tr
                           ++ [EvSaveTxt num_downloaded num_sample])
                    end
                end
            end
      end
  end.

(** One tile through one run of the script: its item is submitted when
    the filter of [__main__] keeps it, that is when it has no record
    file. *)
Definition run_tile (args_list : work_args) (dir : tile_dir) : tile_dir * list event :=
  if bool_decide (is_Some (log_file dir)) then (dir, [])
  else
    let '(_, dir', tr) := generate_and_execute_pipeline args_list dir in
    (dir', tr).

(** The return points of [generate_and_execute_pipeline], each with what
    has happened to the tile's directory when it is reached. *)
Inductive ran (args : work_args) (dir : tile_dir) : result * tile_dir * list event → Prop :=
  | ran_bad_url :
      url_name (url (sample args)) = None →
      ran args dir (ErrorMsg (index args) (Exn IndexError "list index out of range"), dir, [])
  | ran_bad_record name :
      url_name (url (sample args)) = Some name →
      prev_of dir = None →
      ran args dir (ErrorMsg (index args) (Exn ValueError "bad progress record"), dir, [])
  | ran_already_processed name prev :
      url_name (url (sample args)) = Some name →
      prev_of dir = Some prev →
      num_sample args ≤ prev →
      ran args dir (Count 0, dir, [])
  | ran_engine_failed name prev p e :
      url_name (url (sample args)) = Some name →
      prev_of dir = Some prev →
      prev < num_sample args →
      p = update_pipeline (sample args) (geometry (sample args)) prev (num_sample args)
            (join (join (save_root args) name) "temp_download") (file_prefix args) →
      returned (engine p) = inl e →
      ran args dir
        (ErrorMsg (index args) e,
         TileDir (dst_files dir) (Some (written (engine p) ∪ default ∅ (temp_download dir)))
           (log_file dir),
         [EvExecute p])
  | ran_nothing_downloaded name prev p count :
      url_name (url (sample args)) = Some name →
      prev_of dir = Some prev →
      prev < num_sample args →
      p = update_pipeline (sample args) (geometry (sample args)) prev (num_sample args)
            (join (join (save_root args) name) "temp_download") (file_prefix args) →
      returned (engine p) = inr count →
      written (engine p) ∪ default ∅ (temp_download dir) = ∅ →
      ran args dir
        (Count 0,
         TileDir (dst_files dir) (Some ∅)
           (Some (record_text (num_sample args) (num_laz (dst_files dir)))),
         [EvExecute p; EvSaveTxt (num_laz (dst_files dir)) (num_sample args)])
  | ran_move_failed name prev p count e dst' temp' tr :
      url_name (url (sample args)) = Some name →
      prev_of dir = Some prev →
      prev < num_sample args →
      p = update_pipeline (sample args) (geometry (sample args)) prev (num_sample args)
            (join (join (save_root args) name) "temp_download") (file_prefix args) →
      returned (engine p) = inr count →
      move_files (file_prefix args) prev (join (save_root args) name)
        (join (join (save_root args) name) "temp_download")
        (sorted_listdir (written (engine p) ∪ default ∅ (temp_download dir)))
        (dst_files dir) (written (engine p) ∪ default ∅ (temp_download dir))
      = (Some e, dst', temp', tr) →
      ran args dir
        (ErrorMsg (index args) e, TileDir dst' (Some temp') (log_file dir), EvExecute p :: tr)
  | ran_finished name prev p count dst' temp' tr :
      url_name (url (sample args)) = Some name →
      prev_of dir = Some prev →
      prev < num_sample args →
      p = update_pipeline (sample args) (geometry (sample args)) prev (num_sample args)
            (join (join (save_root args) name) "temp_download") (file_prefix args) →
      returned (engine p) = inr count →
      written (engine p) ∪ default ∅ (temp_download dir) ≠ ∅ →
      move_files (file_prefix args) prev (join (save_root args) name)
        (join (join (save_root args) name) "temp_download")
        (sorted_listdir (written (engine p) ∪ default ∅ (temp_download dir)))
        (dst_files dir) (written (engine p) ∪ default ∅ (temp_download dir))
      = (None, dst', temp', tr) →
      ran args dir
        (Count count,
         TileDir dst' (Some temp')
           (Some (record_text (num_sample args) (num_laz dst'))),
         EvExecute p :: tr ++ [EvSaveTxt (num_laz dst') (num_sample args)]).

End Worker.

(** The tile directories under [save_root], by their path [dst_path]. *)
Definition tile_at (fs : gmap string tile_dir) (dst_path : string) : tile_dir :=
  default empty_dir (fs !! dst_path).

(** [args_list]: one tuple per row of the tile list, in its order. *)
Definition make_args_list (gdf : list sample_data) (save_root : string) (num_sample : Z)
    : list work_args :=
  imap (λ i row, WorkArgs (Z.of_nat i) row save_root "tile" num_sample) gdf.

(** The filter of [__main__]: a tile stays when its record file does not
    exist.  [inl] is the exception that ends the script. *)
Fixpoint remaining_args_list (fs : gmap string tile_dir) (args_list : list work_args)
    : exn + list work_args :=
  match args_list with
  | [] => inr []
  | arg :: rest =>
      match url_name (url (sample arg)) with
      | None => inl (Exn IndexError "list index out of range")
      | Some name =>
          let keep := negb (bool_decide (is_Some
                        (log_file (tile_at fs (join (save_root arg) name))))) in
          match remaining_args_list fs rest with
          | inl e => inl e
          | inr l => inr (if keep then arg :: l else l)
          end
      end
  end.

(** What [async_result.get(timeout=timeout)] does for one submitted task:
    it returns the worker's value, raises the worker's exception again, or
    raises [multiprocessing.TimeoutError]. *)
Inductive async_outcome (R : Type) :=
  | Ready (r : R)
  | Raised (e : exn)
  | TimedOut.
Arguments Ready {R} r.
Arguments Raised {R} e.
Arguments TimedOut {R}.

(** The collecting loop of [run_with_timeout]; [None] is appended for a
    timeout, another exception leaves the function. *)
Fixpoint collect {A R} (async_results : list (A * async_outcome R))
    (results : list (option R)) : exn + list (option R) :=
  match async_results with
  | [] => inr results
  | (arg, async_result) :: rest =>
      match async_result with
      | Ready r => collect rest (results ++ [Some r])
      | TimedOut => collect rest (results ++ [None])
      | Raised e => inl e
      end
  end.

Definition run_with_timeout {A R} (async_results : list (A * async_outcome R))
    : exn + list (option R) :=
  collect async_results [].

(** The polygons handed to the reader by each engine call of a trace. *)
Definition requests (tr : list event) : list (list string) :=
  omap (λ ev, match ev with EvExecute p => Some (reader_polygon p) | _ => None end) tr.

Definition is_execute (ev : event) : Prop :=
  match ev with EvExecute _ => True | _ => False end.




(** The entry [run_with_timeout] appends for a task that did not raise. *)
Definition download_entry {A R} (x : A * async_outcome R) : option R :=
  match x.2 with
  | Ready r => Some r
  | _ => None
  end.

End Download.

Module Legacy.

(** scripts/download_process_lidar/download_tiles_mp.py *)

Import Download.

(** Only the first field goes through [int]. *)
Definition read_num_sample (text : string) : option Z :=
  match split "," (strip text) with
  | [num_sample; num_downloaded] => py_int num_sample
  | _ => None
  end.

(** The loop of [__main__] that builds [remaining_args_list]. *)
Fixpoint remaining_args_list (fs : gmap string tile_dir) (args_list : list work_args)
    : exn + list work_args :=
  match args_list with
  | [] => inr []
  | arg :: rest =>
      match url_name (url (sample arg)) with
      | None => inl (Exn IndexError "list index out of range")
      | Some name =>
          let num_available_polygons := Z.of_nat (length (geometry (sample arg))) in
          match
            match log_file (tile_at fs (join (save_root arg) name)) with
            | Some text =>
                match read_num_sample text with
                | Some prev_num_sample =>
                    inr ((prev_num_sample <? num_sample arg)
                         && (prev_num_sample <? num_available_polygons))
                | None => inl (Exn ValueError "bad progress record")
                end
            | None => inr true
            end
          with
          | inl e => inl e
          | inr keep =>
              match remaining_args_list fs rest with
              | inl e => inl e
              | inr l => inr (if keep : bool then arg :: l else l)
              end
          end
      end
  end.

(** When the loop of the root script appends a tile. *)
Definition legacy_keeps (fs : gmap string tile_dir) (arg : work_args) : Prop :=
  ∃ name, url_name (url (sample arg)) = Some name ∧
    match log_file (tile_at fs (join (save_root arg) name)) with
    | None => True
    | Some text =>
        ∃ prev_num_sample, read_num_sample text = Some prev_num_sample ∧
          prev_num_sample < num_sample arg ∧
          prev_num_sample < Z.of_nat (length (geometry (sample arg)))
    end.

End Legacy.

Module NoiseFilter.

(** scripts/download_process_lidar/noise_filter/noise_filter_mp.py *)

Record engine_run := EngineRun {
  written : option string;
  returned : exn + Z;
}.

Inductive result :=
  | Skipped (output_path : string)
  | Count (n : Z)
  | ErrorMsg (index : Z) (e : exn).

Inductive event :=
  | EvExecute (file_path output_path : string).

Section Worker.

(** The engine reads the input file and may write the output file. *)
Variable engine : string → option string → string → engine_run.

Definition filter_noise (args_list : string * string * Z) (fs : gmap string string)
    : result * gmap string string * list event :=
  let '(file_path, output_path, index) := args_list in
  if bool_decide (is_Some (fs !! output_path)) then (Skipped output_path, fs, [])
  else
    let run := engine file_path (fs !! file_path) output_path in
    let fs' := match written run with
               | Some data => <[output_path := data]> fs
               | None => fs
               end in
    match returned run with
    | inl e => (ErrorMsg index e, fs', [EvExecute file_path output_path])
    | inr count => (Count count, fs', [EvExecute file_path output_path])
    end.

End Worker.

End NoiseFilter.

Module InvalidFilter.

(** scripts/download_process_lidar/invalid_filter/invalid_filter_mp.py *)

Import Download.

Local Open Scope Q_scope.

Definition Qlt_bool (a b : Q) : bool := negb (Qle_bool b a).

(** [a.min()] and [a.max()]; [None] is numpy's [ValueError] on an empty
    array. *)
Definition arr_min (a : list Q) : option Q :=
  match a with
  | [] => None
  | v :: r => Some (foldl Qmin v r)
  end.

Definition arr_max (a : list Q) : option Q :=
  match a with
  | [] => None
  | v :: r => Some (foldl Qmax v r)
  end.

(** [mask.sum()] *)
Definition mask_sum (mask : list bool) : nat := length (filter (λ b : bool, b) mask).

Definition return_bigger_tile_mask (x_array : list Q) : option (list bool) :=
  lo ← arr_min x_array;
  hi ← arr_max x_array;
  let x_center := (lo + hi) / 2 in
  let left_mask := map (λ v, Qlt_bool v x_center) x_array in
  let right_mask := map (λ v, Qle_bool x_center v) x_array in
  Some (if (mask_sum right_mask <=? mask_sum left_mask)%nat then left_mask else right_mask).

Record las_point := LasPoint {
  x : Q;
  y : Q;
  other_dims : string;
}.

(** A point file: the header's point format and version, the rest of the
    header, and the point records. *)
Record las_file := LasFile {
  point_format : Z;
  version : string;
  header_rest : string;
  points : list las_point;
}.

(** [points[mask]] *)
Fixpoint select {A} (l : list A) (mask : list bool) : list A :=
  match l, mask with
  | p :: l', b :: mask' => if b then p :: select l' mask' else select l' mask'
  | _, _ => []
  end.

(** [laspy.create(point_format=..., file_version=...)]: a fresh header. *)
Definition laspy_create (point_format : Z) (file_version : string) : las_file :=
  LasFile point_format file_version EmptyString [].

Inductive operation := filtered | copied.

(** The returned message, without its date. *)
Record success := Success {
  op : operation;
  src_path : string;
  out_path : string;
}.

Definition check_invalid_and_correct (args_list : string * string * string)
    (fs : gmap string las_file) : (exn + success) * gmap string las_file :=
  let '(global_idx, tile_path, out_root) := args_list in
  let parts := reverse (split "/" tile_path) in
  match parts !! 1%nat, parts !! 0%nat with
  | Some region_name, Some tile_name =>
      let new_file_path := join (join out_root region_name) tile_name in
      match fs !! tile_path with
      | None => (inl (Exn OSError "No such file or directory"), fs)
      | Some infile =>
          let xs := map x (points infile) in
          let ys := map y (points infile) in
          match arr_min xs, arr_max xs, arr_min ys, arr_max ys with
          | Some x_lo, Some x_hi, Some y_lo, Some y_hi =>
              let x_length := x_hi - x_lo in
              let y_length := y_hi - y_lo in
              if Qlt_bool 1000 x_length || Qlt_bool 1000 y_length then
                match return_bigger_tile_mask
                        (if Qle_bool y_length x_length then xs else ys) with
                | Some mask =>
                    let new_file := laspy_create (point_format infile) (version infile) in
                    let new_file :=
                      LasFile (point_format new_file) (version new_file)
                        (header_rest new_file) (select (points infile) mask) in
                    (inr (Success filtered tile_path new_file_path),
                     <[new_file_path := new_file]> fs)
                | None =>
                    (inl (Exn ValueError "zero-size array to reduction operation"), fs)
                end
              else
                (inr (Success copied tile_path new_file_path),
                 <[new_file_path := infile]> fs)
          | _, _, _, _ =>
              (inl (Exn ValueError "zero-size array to reduction operation"), fs)
          end
      end
  | _, _ => (inl (Exn IndexError "list index out of range"), fs)
  end.

(** One entry of [results]: the worker's message, or the one-element list
    appended by a handler. *)
Inductive entry :=
  | Value (msg : success)
  | ErrorList (l : list string).

Definition handled (e : exn) : bool :=
  bool_decide (exn_kind e ∈ [ValueError; LaspyException; LazrsError]).

(** The collecting loop of this script's [run_with_timeout]: a timeout and
    the three handled exception classes become entries, any other exception
    leaves the function. *)
Fixpoint collect (async_results : list (string * string * string * async_outcome success))
    (results : list entry) : exn + list entry :=
  match async_results with
  | [] => inr results
  | (arg, async_result) :: rest =>
      match async_result with
      | Ready r => collect rest (results ++ [Value r])
      | TimedOut => collect rest (results ++ [ErrorList ["timeout error"]])
      | Raised e =>
          if handled e then collect rest (results ++ [ErrorList [exn_msg e]])
          else inl e
      end
  end.

Definition run_with_timeout
    (async_results : list (string * string * string * async_outcome success))
    : exn + list entry :=
  collect async_results [].




(** The two parts of a tile in the words of the design: the points below
    the center along an axis, and the points at or above it. *)
Definition below_center (axis : las_point → Q) (center : Q) (pts : list las_point)
    : list las_point :=
  filter (λ p, Qlt_bool (axis p) center) pts.

Definition at_or_above_center (axis : las_point → Q) (center : Q) (pts : list las_point)
    : list las_point :=
  filter (λ p, Qle_bool center (axis p)) pts.



(** The entry [run_with_timeout] appends for a task whose exception, if
    any, is handled. *)
Definition invalid_entry (x : string * string * string * async_outcome success)
    : entry :=
  match x.2 with
  | Ready r => Value r
  | TimedOut => ErrorList ["timeout error"]
  | Raised e => ErrorList [exn_msg e]
  end.

End InvalidFilter.

(** ** Concrete tiles, engines and directories *)

Module Examples.

Import Download.

(** A tile with eight polygons. *)
Definition tile_a : sample_data :=
  SampleData "https://s3-us-west-2.amazonaws.com/usgs-lidar-public/USGS_LPC_A/ept.json"
    "32610" ["P0"; "P1"; "P2"; "P3"; "P4"; "P5"; "P6"; "P7"].

(** A tile whose multipolygon is empty. *)
Definition tile_b : sample_data :=
  SampleData "https://s3-us-west-2.amazonaws.com/usgs-lidar-public/USGS_LPC_B/ept.json"
    "32611" [].

Definition args_a (num_sample : Z) : work_args := WorkArgs 0 tile_a "/data" "tile" num_sample.
Definition args_b (num_sample : Z) : work_args := WorkArgs 1 tile_b "/data" "tile" num_sample.

(** An engine that writes one file per requested polygon, numbered from 1,
    and returns 100 points for each. *)
Definition engine_ok (p : pipeline_json) : engine_run :=
  EngineRun
    (list_to_map
       (imap (λ i wkt, ("tile_" +:+ py_str (Z.of_nat (S i)) +:+ ".laz", wkt))
          (reader_polygon p)))
    (inr (100 * Z.of_nat (length (reader_polygon p)))).

(** An engine that fails after its first file when asked for five polygons,
    and finds no point otherwise. *)
Definition engine_flaky (p : pipeline_json) : engine_run :=
  if (length (reader_polygon p) =? 5)%nat
  then EngineRun {["tile_1.laz" := "partial"]} (inl (Exn RuntimeError "readers.ept: timeout"))
  else EngineRun ∅ (inr 0).


(** Directory of tile A after a run with target 5 that got three files. *)
Definition dir_5_3 : tile_dir :=
  TileDir (list_to_map [("tile_1.laz", "P0"); ("tile_2.laz", "P1"); ("tile_4.laz", "P3")])
    (Some ∅) (Some "5,3").

(** A destination that already holds [tile_1.laz], with no record. *)
Definition dir_taken : tile_dir :=
  TileDir {["tile_1.laz" := "old"]} None None.

(** The record of tile A says 3 of 3; nothing else is on disk. *)
Definition fs_a_3_3 : gmap string tile_dir :=
  {["/data/USGS_LPC_A" := TileDir ∅ (Some ∅) (Some "3,3")]}.

(** A noise engine that writes a cleaned copy of a readable input. *)
Definition noise_engine (file_path : string) (input : option string) (output_path : string)
    : NoiseFilter.engine_run :=
  match input with
  | Some data => NoiseFilter.EngineRun (Some ("clean " +:+ data)) (inr 10)
  | None => NoiseFilter.EngineRun None (inl (Exn RuntimeError "readers.las: cannot open"))
  end.

Definition noise_args : string * string * Z :=
  ("/raw/USGS_LPC_A/tile_1.laz", "/processed/USGS_LPC_A/tile_1.laz", 0).

Definition noise_fs : gmap string string := {["/raw/USGS_LPC_A/tile_1.laz" := "points"]}.

Definition pt (x y : Z) : InvalidFilter.las_point :=
  InvalidFilter.LasPoint (inject_Z x) (inject_Z y) "".

(** A tile 1500 wide and 200 high: three points on the left, one on the
    right. *)
Definition wide_tile : InvalidFilter.las_file :=
  InvalidFilter.LasFile 6 "1.4" "scale 0.01"
    [pt 0 0; pt 100 50; pt 200 100; pt 1500 200].

(** A tile file without points. *)
Definition empty_tile : InvalidFilter.las_file :=
  InvalidFilter.LasFile 6 "1.4" "scale 0.01" [].



Definition corrector_args : string * string * string :=
  ("1/2", "/raw/USGS_LPC_A/tile_1.laz", "/processed").

Definition corrector_args2 : string * string * string :=
  ("2/2", "/raw/USGS_LPC_A/tile_2.laz", "/processed").

End Examples.

(** * Lemmas *)

Section Facts.

Import Download.

(** ** Facts about the Python built-ins *)

Lemma str_forall_app P s1 s2 :
  str_forall P (s1 +:+ s2) = str_forall P s1 && str_forall P s2.
Proof. induction s1 as [|c s1 IH]; simpl; [done|]. by rewrite IH, andb_assoc. Qed.

Lemma str_forall_impl (P Q : ascii → bool) s :
  (∀ c, P c = true → Q c = true) → str_forall P s = true → str_forall Q s = true.
Proof.
  intros HPQ. induction s as [|c s IH]; simpl; [done|].
  intros [Hc Hs]%andb_prop. by rewrite (HPQ c Hc), IH.
Qed.

Lemma digit_not_space c : is_digit c = true → int_isspace c = false.
Proof. destruct c as [[] [] [] [] [] [] [] []]; by vm_compute. Qed.

Lemma num_char_not_space c : num_char c = true → py_isspace c = false.
Proof. destruct c as [[] [] [] [] [] [] [] []]; by vm_compute. Qed.

Lemma digits_of_uint d : str_forall is_digit (NilEmpty.string_of_uint d) = true.
Proof. induction d; simpl; auto. Qed.

Lemma rstrip_no_space space s :
  str_forall (λ c, negb (space c)) s = true → rstrip space s = s.
Proof.
  induction s as [|c s IH]; simpl; [done|].
  intros [Hc Hs]%andb_prop. rewrite (IH Hs).
  apply negb_true_iff in Hc. rewrite Hc. by destruct s.
Qed.

Lemma lstrip_no_space space s :
  str_forall (λ c, negb (space c)) s = true → lstrip space s = s.
Proof.
  destruct s as [|c s]; simpl; [done|].
  intros [Hc _]%andb_prop. apply negb_true_iff in Hc. by rewrite Hc.
Qed.

Lemma strip_no_space s :
  str_forall (λ c, negb (py_isspace c)) s = true → strip s = s.
Proof. intros H. unfold strip. by rewrite (lstrip_no_space _ s H), rstrip_no_space. Qed.

Lemma int_strip_no_space s :
  str_forall (λ c, negb (int_isspace c)) s = true →
  rstrip int_isspace (lstrip int_isspace s) = s.
Proof. intros H. by rewrite (lstrip_no_space _ s H), rstrip_no_space. Qed.

Lemma drop_underscores_digits s prev :
  str_forall is_digit s = true → s ≠ EmptyString → drop_underscores prev s = Some s.
Proof.
  revert prev. induction s as [|c s IH]; intros prev Hs Hne; [done|].
  simpl in *. apply andb_prop in Hs as [Hc Hs].
  replace (Ascii.eqb c "_") with false
    by (destruct c as [[] [] [] [] [] [] [] []]; by vm_compute in Hc |- *).
  rewrite Hc. destruct s as [|c' s']; [done|]. by rewrite IH.
Qed.

Lemma string_of_uint_nonempty d : d ≠ Decimal.Nil → NilEmpty.string_of_uint d ≠ EmptyString.
Proof. by destruct d. Qed.

Lemma py_int_digits d :
  d ≠ Decimal.Nil → py_int (NilEmpty.string_of_uint d) = Some (Z.of_uint d).
Proof.
  intros Hd. unfold py_int.
  pose proof (digits_of_uint d) as Hdig.
  rewrite int_strip_no_space
    by (eapply str_forall_impl; [|exact Hdig]; intros c Hc; by rewrite digit_not_space).
  pose proof (string_of_uint_nonempty d Hd) as Hne.
  destruct (NilEmpty.string_of_uint d) as [|c s] eqn:Hs; [done|].
  simpl in Hdig. apply andb_prop in Hdig as [Hc Hdig'].
  replace (Ascii.eqb c "-") with false
    by (destruct c as [[] [] [] [] [] [] [] []]; by vm_compute in Hc |- *).
  replace (Ascii.eqb c "+") with false
    by (destruct c as [[] [] [] [] [] [] [] []]; by vm_compute in Hc |- *).
  rewrite drop_underscores_digits by (simpl; rewrite ?Hc, ?Hdig'; done).
  rewrite <- Hs. unfold mbind, option_bind. rewrite NilEmpty.usu. by destruct d.
Qed.

Lemma py_int_neg_digits d :
  d ≠ Decimal.Nil →
  py_int (String "-" (NilEmpty.string_of_uint d)) = Some (- Z.of_uint d).
Proof.
  intros Hd. unfold py_int.
  pose proof (digits_of_uint d) as Hdig.
  rewrite int_strip_no_space.
  2:{ simpl. eapply str_forall_impl; [|exact Hdig]; intros c Hc; by rewrite digit_not_space. }
  replace (Ascii.eqb "-" "-") with true by done.
  rewrite drop_underscores_digits by (done || by apply string_of_uint_nonempty).
  unfold mbind, option_bind. rewrite NilEmpty.usu. by destruct d.
Qed.

Lemma py_int_py_str z : py_int (py_str z) = Some z.
Proof.
  unfold py_str. destruct z as [|p|p]; [done| |]; simpl.
  - pose proof (Unsigned.to_uint_nonnil p) as Hn.
    unfold NilZero.string_of_uint.
    destruct (Pos.to_uint p) eqn:Hp; try done;
      rewrite <- Hp, py_int_digits by (by rewrite Hp);
      unfold Z.of_uint; by rewrite DecimalPos.Unsigned.of_to.
  - pose proof (Unsigned.to_uint_nonnil p) as Hn.
    unfold NilZero.string_of_uint.
    destruct (Pos.to_uint p) eqn:Hp; try done;
      rewrite <- Hp, py_int_neg_digits by (by rewrite Hp);
      unfold Z.of_uint; by rewrite DecimalPos.Unsigned.of_to.
Qed.

Lemma py_str_inj z1 z2 : py_str z1 = py_str z2 → z1 = z2.
Proof.
  intros H. apply (f_equal py_int) in H. rewrite !py_int_py_str in H. congruence.
Qed.

Lemma py_str_num_chars z : str_forall num_char (py_str z) = true.
Proof.
  assert (∀ d, str_forall num_char (NilZero.string_of_uint d) = true) as Hd.
  { intros d. unfold NilZero.string_of_uint.
    destruct d; try done;
      (eapply str_forall_impl; [|apply digits_of_uint]);
      intros c Hc; unfold num_char; by rewrite Hc. }
  unfold py_str. destruct z as [|p|p]; simpl; [done|apply Hd|].
  by rewrite Hd.
Qed.

Lemma split_no_sep sep s :
  str_forall (λ c, negb (Ascii.eqb c sep)) s = true → split sep s = [s].
Proof.
  induction s as [|c s IH]; simpl; [done|].
  intros [Hc Hs]%andb_prop. apply negb_true_iff in Hc. by rewrite Hc, IH.
Qed.

Lemma split_app_sep sep a b :
  str_forall (λ c, negb (Ascii.eqb c sep)) a = true →
  split sep (a +:+ String sep b) = a :: split sep b.
Proof.
  induction a as [|c a IH]; simpl.
  - intros _. by rewrite Ascii.eqb_refl.
  - intros [Hc Ha]%andb_prop. apply negb_true_iff in Hc. by rewrite Hc, IH.
Qed.

Lemma num_char_not_comma c : num_char c = true → negb (Ascii.eqb c ",") = true.
Proof. destruct c as [[] [] [] [] [] [] [] []]; by vm_compute. Qed.

Lemma parse_record_text required num_downloaded :
  parse_record (record_text required num_downloaded) = Some (required, num_downloaded).
Proof.
  unfold parse_record, record_text.
  pose proof (py_str_num_chars required) as Hr.
  pose proof (py_str_num_chars num_downloaded) as Hn.
  rewrite strip_no_space.
  2:{ assert (∀ t, str_forall num_char t = true →
               str_forall (λ c, negb (py_isspace c)) t = true) as Hclean.
      { intros t. apply str_forall_impl. intros c Hc. by rewrite num_char_not_space. }
      rewrite str_forall_app. apply andb_true_intro. split; [by apply Hclean|].
      change ("," +:+ py_str num_downloaded) with (String "," (py_str num_downloaded)).
      cbn [str_forall]. by rewrite Hclean. }
  change ("," +:+ py_str num_downloaded) with (String "," (py_str num_downloaded)).
  rewrite split_app_sep by (eapply str_forall_impl; [apply num_char_not_comma|done]).
  rewrite split_no_sep by (eapply str_forall_impl; [apply num_char_not_comma|done]).
  simpl. by rewrite !py_int_py_str.
Qed.

Lemma save_txt_final num_downloaded required file :
  Download.save_txt num_downloaded required file = Some (record_text required num_downloaded).
Proof. done. Qed.

Lemma read_num_sample_save_txt num_downloaded required file :
  Download.save_txt num_downloaded required file ≫= Download.read_num_sample = Some required.
Proof.
  rewrite save_txt_final. simpl. unfold Download.read_num_sample.
  by rewrite parse_record_text.
Qed.

Lemma py_slice_nonneg {A} (l : list A) i j :
  0 ≤ i → i ≤ j → py_slice l i j = take (Z.to_nat (j - i)) (drop (Z.to_nat i) l).
Proof.
  intros Hi Hj. unfold py_slice, py_bound.
  rewrite !(proj2 (Z.ltb_ge _ _)) by lia.
  set (n := Z.of_nat (length l)).
  destruct (decide (i ≤ n)) as [Hin|Hin].
  - rewrite (Z.min_l i n) by lia.
    destruct (decide (j ≤ n)) as [Hjn|Hjn].
    + by rewrite (Z.min_l j n) by lia.
    + rewrite (Z.min_r j n) by lia.
      rewrite !take_ge; [done| |]; rewrite length_drop; lia.
  - rewrite (Z.min_r i n), (Z.min_r j n) by lia.
    rewrite !drop_ge by lia. by rewrite !take_nil.
Qed.

(** ** The staging directory listing *)

Lemma sorted_listdir_elem (dir : gmap string string) n :
  n ∈ sorted_listdir dir ↔ n ∈ dom dir.
Proof.
  unfold sorted_listdir. rewrite merge_sort_Permutation. apply elem_of_elements.
Qed.

Lemma sorted_listdir_NoDup (dir : gmap string string) : NoDup (sorted_listdir dir).
Proof.
  unfold sorted_listdir. rewrite merge_sort_Permutation. apply NoDup_elements.
Qed.

Lemma sorted_listdir_sorted (dir : gmap string string) :
  StronglySorted String.le (sorted_listdir dir).
Proof. apply StronglySorted_merge_sort; apply _. Qed.

Lemma sorted_listdir_nil (dir : gmap string string) :
  sorted_listdir dir = [] ↔ dir = ∅.
Proof.
  split.
  - intros H. apply map_eq. intros k. rewrite lookup_empty.
    destruct (dir !! k) eqn:Hk; [|done].
    assert (k ∈ sorted_listdir dir) as Hin
      by (apply sorted_listdir_elem, elem_of_dom; eauto).
    rewrite H in Hin. by apply elem_of_nil in Hin.
  - intros ->. done.
Qed.

(** ** The move loop *)

Lemma move_files_spec pfx prev dp dpt names : ∀ dst temp e dst' temp' tr,
  NoDup names →
  (∀ n, n ∈ names → is_Some (temp !! n)) →
  move_files pfx prev dp dpt names dst temp = (e, dst', temp', tr) →
  ∃ moved rest,
    names = moved ++ rest ∧
    Forall (λ n, is_Some (cur_id n)) moved ∧
    match e with
    | None => rest = []
    | Some _ => ∃ bad rest', rest = bad :: rest' ∧ cur_id bad = None
    end ∧
    dom dst' = dom dst ∪ list_to_set (dest_of pfx prev <$> moved) ∧
    (∀ k, temp' !! k = if decide (k ∈ moved) then None else temp !! k) ∧
    Forall is_rename tr ∧ length tr = length moved.
Proof.
  induction names as [|n names IH]; intros dst' temp e dst temp' tr Hnd Hin Hmv.
  - simpl in Hmv. simplify_eq. exists [], []. split_and!; try done.
    set_solver.
  - simpl in Hmv. destruct (cur_id n) as [id|] eqn:Hid.
    + destruct (Hin n ltac:(set_solver)) as [data Hdata]. rewrite Hdata in Hmv.
      destruct (move_files pfx prev dp dpt names (<[new_name pfx (prev + id):=data]> dst')
                  (delete n temp)) as [[[e0 dst0] temp0] tr0] eqn:Hrec.
      simplify_eq. apply NoDup_cons in Hnd as [Hn Hnd].
      apply IH in Hrec as (moved & rest & -> & Hall & He & Hdom & Htemp & Htr & Hlen);
        [|done|].
      2:{ intros k Hk. rewrite lookup_delete_ne by set_solver. apply Hin. set_solver. }
      exists (n :: moved), rest. split_and!; try done.
      * constructor; [by rewrite Hid|done].
      * rewrite Hdom, dom_insert_L. rewrite fmap_cons. unfold dest_of at 2.
        rewrite Hid. simpl. set_solver.
      * intros k. rewrite Htemp. destruct (decide (k = n)) as [->|Hkn].
        -- rewrite lookup_delete_eq. rewrite (decide_True (P := n ∈ n :: moved)) by set_solver.
           by case_decide.
        -- rewrite lookup_delete_ne by done.
           repeat case_decide; set_solver.
      * by constructor.
      * simpl. by rewrite Hlen.
    + simplify_eq. exists [], (n :: names). split_and!; try done.
      * eauto.
      * set_solver.
Qed.

Lemma retry_moves_subset (T1 T2 : gmap string string) moved1 bad rest1 moved2 rest2 :
  dom T2 ⊆ dom T1 →
  sorted_listdir T1 = moved1 ++ bad :: rest1 →
  cur_id bad = None →
  bad ∈ dom T2 →
  sorted_listdir T2 = moved2 ++ rest2 →
  Forall (λ n, is_Some (cur_id n)) moved2 →
  moved2 ⊆ moved1.
Proof.
  intros Hsub HL1 Hbad HbadT2 HL2 Hparse n Hn.
  assert (is_Some (cur_id n)) as Hpn by (by eapply Forall_forall in Hparse).
  assert (n ∈ sorted_listdir T1) as Hn1.
  { apply sorted_listdir_elem, Hsub, sorted_listdir_elem. rewrite HL2. set_solver. }
  rewrite HL1 in Hn1. apply elem_of_app in Hn1 as [?|Hn1]; [done|].
  apply elem_of_cons in Hn1 as [->|Hn1]; [rewrite Hbad in Hpn; by destruct Hpn|].
  exfalso.
  pose proof (sorted_listdir_sorted T1) as Hs1. rewrite HL1 in Hs1.
  apply (StronglySorted_app_1_r _ moved1) in Hs1. apply StronglySorted_inv in Hs1 as [_ Hle1].
  assert (String.le bad n) as Hbn by (by eapply Forall_forall in Hle1).
  assert (bad ∈ rest2) as Hbad2.
  { apply sorted_listdir_elem in HbadT2. rewrite HL2 in HbadT2.
    apply elem_of_app in HbadT2 as [Hb|?]; [|done].
    eapply Forall_forall in Hparse; [|exact Hb]. rewrite Hbad in Hparse. by destruct Hparse. }
  pose proof (sorted_listdir_sorted T2) as Hs2. rewrite HL2 in Hs2.
  pose proof (StronglySorted_app_1_elem_of _ _ _ _ _ Hs2 Hn Hbad2) as Hnb.
  assert (n = bad) as -> by (by apply (anti_symm String.le)).
  rewrite Hbad in Hpn. by destruct Hpn.
Qed.

Lemma worker_skip engine args dir name prev :
  url_name (url (sample args)) = Some name →
  prev_of dir = Some prev →
  num_sample args ≤ prev →
  generate_and_execute_pipeline engine args dir = (Count 0, dir, []).
Proof.
  unfold generate_and_execute_pipeline, prev_of. intros -> -> Hle.
  by rewrite (proj2 (Z.geb_le _ _)) by done.
Qed.

Lemma prev_of_saved d t n q old :
  prev_of (TileDir d t (save_txt n q old)) = Some q.
Proof.
  unfold prev_of. cbn [log_file]. rewrite save_txt_final.
  unfold read_num_sample. by rewrite parse_record_text.
Qed.

Lemma worker_retry engine args dir r1 dir1 tr1 r2 dir2 tr2 :
  generate_and_execute_pipeline engine args dir = (r1, dir1, tr1) →
  generate_and_execute_pipeline engine args dir1 = (r2, dir2, tr2) →
  dom (dst_files dir2) = dom (dst_files dir1) ∧
  (∀ c, r1 = Count c → dir2 = dir1 ∧ tr2 = []).
Proof.
  intros Hrun1 Hrun2.
  unfold generate_and_execute_pipeline in Hrun1.
  destruct (url_name (url (sample args))) as [name|] eqn:Hname.
  2:{ simplify_eq. unfold generate_and_execute_pipeline in Hrun2.
      rewrite Hname in Hrun2. by simplify_eq. }
  change (match log_file dir with Some text => read_num_sample text | None => Some 0 end)
    with (prev_of dir) in Hrun1.
  destruct (prev_of dir) as [prev|] eqn:Hprev.
  2:{ simplify_eq. unfold generate_and_execute_pipeline in Hrun2.
      rewrite Hname in Hrun2.
      change (match log_file dir1 with Some text => read_num_sample text | None => Some 0 end)
        with (prev_of dir1) in Hrun2.
      rewrite Hprev in Hrun2. by simplify_eq. }
  destruct (prev >=? num_sample args) eqn:Hge.
  { simplify_eq. apply Z.geb_le in Hge.
    rewrite (worker_skip _ _ _ _ _ Hname Hprev Hge) in Hrun2. by simplify_eq. }
  cbv zeta in Hrun1.
  set (p := update_pipeline _ _ _ _ _ _) in Hrun1.
  set (temp1 := written (engine p) ∪ default ∅ (temp_download dir)) in Hrun1.
  assert (∀ d t n, generate_and_execute_pipeline engine args
            (TileDir d t (save_txt n (num_sample args) (log_file dir)))
          = (Count 0, TileDir d t (save_txt n (num_sample args) (log_file dir)), []))
    as Hcommitted.
  { intros d t n. eapply worker_skip; [done|apply prev_of_saved|lia]. }
  destruct (returned (engine p)) as [e|count] eqn:Hret.
  - (* the engine raised: the same request raises again *)
    simplify_eq. unfold generate_and_execute_pipeline in Hrun2.
    rewrite Hname in Hrun2. cbn [log_file dst_files temp_download] in Hrun2.
    change (match log_file dir with Some text => read_num_sample text | None => Some 0 end)
      with (prev_of dir) in Hrun2.
    rewrite Hprev, Hge in Hrun2. cbv zeta in Hrun2. fold p in Hrun2.
    rewrite Hret in Hrun2. by simplify_eq.
  - destruct (sorted_listdir temp1) as [|n0 names0] eqn:Hlist.
    + simplify_eq. rewrite Hcommitted in Hrun2. by simplify_eq.
    + destruct (move_files _ _ _ _ _ _ _) as [[[e1 dst1] temp1'] tr] eqn:Hmv in Hrun1.
      destruct e1 as [e1|].
      2:{ simplify_eq. rewrite Hcommitted in Hrun2. by simplify_eq. }
      simplify_eq. split; [|done].
      rewrite <- Hlist in Hmv.
      apply move_files_spec in Hmv
        as (moved1 & rest1 & HL1 & Hp1 & (bad & rest1' & -> & Hbad) & Hdom1 & Htemp1 & _);
        [|apply sorted_listdir_NoDup
         |intros k Hk%sorted_listdir_elem; by apply elem_of_dom].
      unfold generate_and_execute_pipeline in Hrun2.
      rewrite Hname in Hrun2. cbn [log_file dst_files temp_download] in Hrun2.
      change (match log_file dir with Some text => read_num_sample text | None => Some 0 end)
        with (prev_of dir) in Hrun2.
      rewrite Hprev, Hge in Hrun2. cbv zeta in Hrun2. fold p in Hrun2.
      rewrite Hret in Hrun2.
      change (default ∅ (Some temp1')) with temp1' in Hrun2.
      set (temp2 := written (engine p) ∪ temp1') in Hrun2.
      assert (dom temp2 ⊆ dom temp1) as Hsub.
      { intros k. unfold temp2, temp1. rewrite !dom_union, !elem_of_union, !elem_of_dom.
        intros [?|Hk]; [by left|]. rewrite Htemp1 in Hk. case_decide; [by destruct Hk|].
        fold temp1 in Hk. apply elem_of_dom in Hk. unfold temp1 in Hk.
        by rewrite dom_union, elem_of_union, !elem_of_dom in Hk. }
      assert (bad ∈ dom temp2) as Hbad2.
      { unfold temp2. rewrite dom_union, elem_of_union, (elem_of_dom temp1').
        right. rewrite Htemp1.
        assert (bad ∉ moved1) as Hnm.
        { intros Hin. eapply Forall_forall in Hp1; [|exact Hin].
          rewrite Hbad in Hp1. by destruct Hp1. }
        rewrite decide_False by done.
        apply elem_of_dom, sorted_listdir_elem. rewrite HL1. set_solver. }
      destruct (sorted_listdir temp2) as [|n2 names2] eqn:Hlist2.
      { by simplify_eq. }
      destruct (move_files _ _ _ _ _ _ _) as [[[e2 dst2] temp2'] tr2'] eqn:Hmv2 in Hrun2.
      rewrite <- Hlist2 in Hmv2.
      apply move_files_spec in Hmv2
        as (moved2 & rest2 & HL2 & Hp2 & _ & Hdom2 & _);
        [|apply sorted_listdir_NoDup
         |intros k Hk%sorted_listdir_elem; by apply elem_of_dom].
      pose proof (retry_moves_subset temp1 temp2 _ _ _ _ _ Hsub HL1 Hbad Hbad2 HL2 Hp2)
        as Hmoved.
      assert (dom dst2 = dom dst1) as Hdom.
      { rewrite Hdom2, Hdom1. set_solver. }
      by destruct e2; simplify_eq.
Qed.

End Facts.

Section WorkerFacts.

Import Download.

Variable engine : pipeline_json → engine_run.

Lemma worker_ran args dir : ran engine args dir (generate_and_execute_pipeline engine args dir).
Proof.
  unfold generate_and_execute_pipeline.
  destruct (url_name (url (sample args))) as [name|] eqn:Hname; [|by constructor].
  change (match log_file dir with Some text => read_num_sample text | None => Some 0 end)
    with (prev_of dir).
  destruct (prev_of dir) as [prev|] eqn:Hprev; [|by econstructor].
  destruct (prev >=? num_sample args) eqn:Hge.
  { apply Z.geb_le in Hge. by econstructor. }
  assert (prev < num_sample args) as Hlt.
  { destruct (Z.geb_spec prev (num_sample args)); [done|lia]. }
  cbv zeta. unfold multipolygon_to_wkt_list.
  set (p := update_pipeline _ _ _ _ _ _).
  set (temp1 := written (engine p) ∪ default ∅ (temp_download dir)).
  destruct (returned (engine p)) as [e|count] eqn:Hret.
  { by eapply ran_engine_failed. }
  destruct (sorted_listdir temp1) as [|n0 names0] eqn:Hlist.
  { apply sorted_listdir_nil in Hlist. rewrite Hlist, save_txt_final.
    eapply ran_nothing_downloaded; eauto. }
  rewrite <- Hlist.
  destruct (move_files _ _ _ _ _ _ _) as [[[e1 dst1] temp1'] tr] eqn:Hmv.
  destruct e1 as [e1|].
  - eapply ran_move_failed; eauto.
  - rewrite save_txt_final. eapply ran_finished; eauto.
    intros Hempty. apply sorted_listdir_nil in Hempty. fold temp1 in Hempty. congruence.
Qed.

Lemma move_listed pfx prev dp dpt dst (temp : gmap string string) e dst' temp' tr :
  move_files pfx prev dp dpt (sorted_listdir temp) dst temp = (e, dst', temp', tr) →
  ∃ moved rest,
    sorted_listdir temp = moved ++ rest ∧
    Forall (λ n, is_Some (cur_id n)) moved ∧
    match e with
    | None => rest = []
    | Some _ => ∃ bad rest', rest = bad :: rest' ∧ cur_id bad = None
    end ∧
    dom dst' = dom dst ∪ list_to_set (dest_of pfx prev <$> moved) ∧
    (∀ k, temp' !! k = if decide (k ∈ moved) then None else temp !! k) ∧
    Forall is_rename tr ∧ length tr = length moved.
Proof.
  intros Hmv. eapply move_files_spec; [apply sorted_listdir_NoDup| |exact Hmv].
  intros k Hk%sorted_listdir_elem. by apply elem_of_dom.
Qed.

Lemma move_listed_all pfx prev dp dpt dst (temp : gmap string string) dst' temp' tr :
  move_files pfx prev dp dpt (sorted_listdir temp) dst temp = (None, dst', temp', tr) →
  temp' = ∅.
Proof.
  intros (moved & rest & HL & _ & -> & _ & Htemp & _)%move_listed.
  rewrite app_nil_r in HL. apply map_eq. intros k. rewrite Htemp, lookup_empty.
  case_decide as Hk; [done|]. rewrite <- HL, sorted_listdir_elem in Hk.
  by apply not_elem_of_dom.
Qed.

Lemma move_trace pfx prev dp dpt dst (temp : gmap string string) e dst' temp' tr :
  move_files pfx prev dp dpt (sorted_listdir temp) dst temp = (e, dst', temp', tr) →
  Forall is_rename tr.
Proof. by intros (_ & _ & _ & _ & _ & _ & _ & Htr & _)%move_listed. Qed.

Lemma rename_not_execute tr : Forall is_rename tr → Forall (λ ev, ¬ is_execute ev) tr.
Proof. intros H. eapply Forall_impl; [exact H|]. intros []; simpl; tauto. Qed.

Ltac worker_inv args dir :=
  let H := fresh "Hran" in
  pose proof (worker_ran args dir) as H;
  destruct (generate_and_execute_pipeline engine args dir) as [[? ?] ?];
  inversion H; clear H; simplify_eq; cbn [fst snd log_file dst_files temp_download].

Lemma resume_request args dir name prev :
  url_name (url (sample args)) = Some name →
  prev_of dir = Some prev →
  0 ≤ prev < num_sample args →
  ∃ p rest,
    events (generate_and_execute_pipeline engine args dir) = EvExecute p :: rest ∧
    Forall (λ ev, ¬ is_execute ev) rest ∧
    reader_polygon p
    = take (Z.to_nat (num_sample args - prev)) (drop (Z.to_nat prev) (geometry (sample args))) ∧
    crop_polygon p = reader_polygon p.
Proof.
  intros Hname Hprev [H0 Hlt]. unfold events.
  worker_inv args dir; try lia.
  all: eexists _, _; split_and!; [done| |by apply py_slice_nonneg; lia|done].
  - by constructor.
  - repeat constructor; by intros [].
  - by apply rename_not_execute, (move_trace _ _ _ _ _ _ _ _ _ _ ltac:(eassumption)).
  - apply Forall_app. split;
      [by apply rename_not_execute, (move_trace _ _ _ _ _ _ _ _ _ _ ltac:(eassumption))|].
    repeat constructor. by intros [].
Qed.

(** C1 (amended).  The progress read returns the first field of the record,
    the target [required] of the dispatch that wrote it, and 0 without a
    record.  With that offset [prev] below the target, the worker calls the
    engine once, and the reader and the crop stage both get the polygons of
    the range [prev, num_sample): nothing below [prev] is requested again. *)
Theorem C1_resume_from_recorded_target args dir name prev :
  url_name (url (sample args)) = Some name →
  prev_of dir = Some prev →
  0 ≤ prev < num_sample args →
  (∀ required completed, read_num_sample (record_text required completed) = Some required) ∧
  (∀ text required completed,
     log_file dir = Some text → parse_record text = Some (required, completed) →
     prev = required) ∧
  (log_file dir = None → prev = 0) ∧
  ∃ p rest,
    events (generate_and_execute_pipeline engine args dir) = EvExecute p :: rest ∧
    Forall (λ ev, ¬ is_execute ev) rest ∧
    reader_polygon p
    = take (Z.to_nat (num_sample args - prev)) (drop (Z.to_nat prev) (geometry (sample args))) ∧
    crop_polygon p = reader_polygon p.
Proof.
  intros Hname Hprev Hrange. split_and!.
  - intros required completed. unfold read_num_sample. by rewrite parse_record_text.
  - intros text required completed Hlog Hrec. unfold prev_of in Hprev.
    rewrite Hlog in Hprev. unfold read_num_sample in Hprev. rewrite Hrec in Hprev.
    by simplify_eq/=.
  - intros Hlog. unfold prev_of in Hprev. rewrite Hlog in Hprev. by simplify_eq.
  - by eapply resume_request.
Qed.

(** C3.  Whenever the worker commits a record, in the branch with an empty
    staging directory as in the branch that moved files, the committed
    [num_downloaded] is the number of [*.laz] entries the destination
    directory holds at that moment, the record reads back as that pair, and
    every dispatch that returns a count commits; the empty branch returns
    the count 0, not an error. *)
Theorem C3_commit_is_recount args dir :
  let run := generate_and_execute_pipeline engine args dir in
  (∀ n q, EvSaveTxt n q ∈ events run →
     n = num_laz (dst_files (after run)) ∧ q = num_sample args ∧
     log_file (after run) ≫= parse_record
     = Some (num_sample args, num_laz (dst_files (after run)))) ∧
  (∀ c, outcome run = Count c → events run ≠ [] →
     EvSaveTxt (num_laz (dst_files (after run))) (num_sample args) ∈ events run) ∧
  (∀ p c, events run = [EvExecute p; EvSaveTxt c (num_sample args)] →
     outcome run = Count 0 ∧ dst_files (after run) = dst_files dir ∧
     c = num_laz (dst_files dir)) ∧
  ((∀ n q, EvSaveTxt n q ∉ events run) → log_file (after run) = log_file dir).
Proof.
  unfold events, after, outcome.
  worker_inv args dir; split_and!; try done; try set_solver.
  - intros n q Hin. assert (n = num_laz (dst_files dir) ∧ q = num_sample args) as [-> ->]
      by set_solver.
    unfold mbind, option_bind. by rewrite parse_record_text.
  - intros n q Hin. exfalso.
    pose proof (move_trace _ _ _ _ _ _ _ _ _ _ ltac:(eassumption)) as Htr.
    apply elem_of_cons in Hin as [?|Hin]; [done|].
    by eapply Forall_forall in Htr; [|exact Hin].
  - intros p0 c Heq. exfalso.
    pose proof (move_trace _ _ _ _ _ _ _ _ _ _ ltac:(eassumption)) as Htr.
    injection Heq as _ Heq. subst tr. by apply Forall_cons in Htr as [[] _].
  - intros n q Hin.
    pose proof (move_trace _ _ _ _ _ _ _ _ _ _ ltac:(eassumption)) as Htr.
    apply elem_of_cons in Hin as [?|Hin]; [done|].
    apply elem_of_app in Hin as [Hin|Hin].
    + by eapply Forall_forall in Htr; [|exact Hin].
    + apply list_elem_of_singleton in Hin. simplify_eq.
      unfold mbind, option_bind. by rewrite parse_record_text.
  - intros p0 c Heq. exfalso.
    match goal with H : move_files _ _ _ _ _ _ _ = _ |- _ =>
      apply move_listed in H as (moved & rest & HL & _ & -> & _ & _ & _ & Hlen) end.
    rewrite app_nil_r in HL.
    destruct tr as [|ev tr']; [|destruct tr'; simplify_eq/=].
    destruct moved; [|done].
    match goal with H : _ ≠ ∅ |- _ => apply H end.
    by apply sorted_listdir_nil.
Qed.

Lemma engine_failure_aborts args dir p e tr :
  events (generate_and_execute_pipeline engine args dir) = EvExecute p :: tr →
  returned (engine p) = inl e →
  outcome (generate_and_execute_pipeline engine args dir) = ErrorMsg (index args) e ∧
  tr = [] ∧
  dst_files (after (generate_and_execute_pipeline engine args dir)) = dst_files dir ∧
  log_file (after (generate_and_execute_pipeline engine args dir)) = log_file dir.
Proof.
  unfold events, after, outcome.
  worker_inv args dir; intros Hev Hret; try done;
    injection Hev as Hp Htr; subst; split_and!; congruence.
Qed.

(** C10 (amended).  The worker never removes [temp_download].  After a
    dispatch that reached the engine the directory is still there, and it
    holds only entries it held before or the engine wrote.  It is empty when
    the worker returned a count, because every listed entry was moved out or
    there was none.  When the engine raised it holds what it held before
    together with everything the engine wrote, the engine's file under a
    name both have. *)
Theorem C10_staging_left_in_place args dir :
  events (generate_and_execute_pipeline engine args dir) ≠ [] →
  ∃ staged,
    temp_download (after (generate_and_execute_pipeline engine args dir)) = Some staged ∧
    (∀ c, outcome (generate_and_execute_pipeline engine args dir) = Count c → staged = ∅) ∧
    (∀ p tr, events (generate_and_execute_pipeline engine args dir) = EvExecute p :: tr →
       staged ⊆ written (engine p) ∪ default ∅ (temp_download dir) ∧
       ∀ e, returned (engine p) = inl e →
         staged = written (engine p) ∪ default ∅ (temp_download dir) ∧
         ∀ name data, written (engine p) !! name = Some data → staged !! name = Some data).
Proof.
  unfold events, after, outcome.
  worker_inv args dir; intros Hev; try done; eexists; (split; [done|]).
  - split; [done|]. intros p0 tr0 Heq. injection Heq as <- <-.
    split; [done|]. intros e0 _. split; [done|].
    intros name0 data Hw. by apply lookup_union_Some_l.
  - split; [done|]. intros p0 tr0 Heq. injection Heq as <- <-.
    split; [apply map_empty_subseteq|]. intros e0 He0. congruence.
  - split; [done|]. intros p0 tr0 Heq. injection Heq as <- <-.
    split; [|intros e0 He0; congruence].
    match goal with H : move_files _ _ _ _ _ _ _ = _ |- _ =>
      apply move_listed in H as (moved & rest & _ & _ & _ & _ & Htemp & _) end.
    apply map_subseteq_spec. intros k v. rewrite Htemp. by case_decide.
  - split; [intros c _; by eapply move_listed_all|].
    intros p0 tr0 Heq. injection Heq as <- _.
    split; [|intros e0 He0; congruence].
    match goal with H : move_files _ _ _ _ _ _ _ = _ |- _ =>
      apply move_listed in H as (moved & rest & _ & _ & _ & _ & Htemp & _) end.
    apply map_subseteq_spec. intros k v. rewrite Htemp. by case_decide.
Qed.

(** The worker run a second time on the directory the first run left. *)
Lemma worker_twice args dir :
  let run1 := generate_and_execute_pipeline engine args dir in
  let run2 := generate_and_execute_pipeline engine args (after run1) in
  dom (dst_files (after run2)) = dom (dst_files (after run1)) ∧
  (∀ c, outcome run1 = Count c → after run2 = after run1 ∧ events run2 = []).
Proof.
  cbv zeta. unfold after, events, outcome.
  destruct (generate_and_execute_pipeline engine args dir) as [[r1 dir1] tr1] eqn:H1.
  cbn [fst snd].
  destruct (generate_and_execute_pipeline engine args dir1) as [[r2 dir2] tr2] eqn:H2.
  cbn [fst snd]. by eapply worker_retry.
Qed.

Lemma run_tile_twice args dir :
  dom (dst_files (run_tile engine args (run_tile engine args dir).1).1)
  = dom (dst_files (run_tile engine args dir).1).
Proof.
  unfold run_tile at 2 3.
  destruct (bool_decide (is_Some (log_file dir))) eqn:Hlog; cbn [fst].
  - unfold run_tile. by rewrite Hlog.
  - pose proof (worker_twice args dir) as [Hdom _]. unfold after in Hdom.
    destruct (generate_and_execute_pipeline engine args dir) as [[r1 dir1] tr1]. cbn [fst snd] in *.
    unfold run_tile. destruct (bool_decide (is_Some (log_file dir1))); [done|].
    by destruct (generate_and_execute_pipeline engine args dir1) as [[r2 dir2] tr2].
Qed.

End WorkerFacts.

(** ** Noise filter *)

Lemma filter_noise_exists engine file_path output_path index (fs : gmap string string) :
  is_Some (fs !! output_path) →
  NoiseFilter.filter_noise engine (file_path, output_path, index) fs
  = (NoiseFilter.Skipped output_path, fs, []).
Proof. intros H. unfold NoiseFilter.filter_noise. by rewrite bool_decide_eq_true_2. Qed.

Lemma filter_noise_twice engine args (fs : gmap string string) :
  let run1 := NoiseFilter.filter_noise engine args fs in
  let run2 := NoiseFilter.filter_noise engine args run1.1.2 in
  run2.1.2 = run1.1.2 ∧
  (is_Some (run1.1.2 !! args.1.2) → run2.2 = []).
Proof.
  destruct args as [[file_path output_path] index]. cbv zeta. cbn [fst snd].
  split.
  2:{ intros Hs. by rewrite filter_noise_exists. }
  destruct (decide (is_Some (fs !! output_path))) as [Hout|Hout].
  { rewrite (filter_noise_exists _ _ _ _ fs) by done. cbn [fst snd].
    by rewrite filter_noise_exists. }
  assert (NoiseFilter.filter_noise engine (file_path, output_path, index) fs
          = (match NoiseFilter.returned (engine file_path (fs !! file_path) output_path) with
             | inl e => NoiseFilter.ErrorMsg index e
             | inr count => NoiseFilter.Count count
             end,
             match NoiseFilter.written (engine file_path (fs !! file_path) output_path) with
             | Some data => <[output_path := data]> fs
             | None => fs
             end,
             [NoiseFilter.EvExecute file_path output_path])) as Hrun.
  { unfold NoiseFilter.filter_noise. rewrite bool_decide_eq_false_2 by done.
    by destruct (NoiseFilter.returned _). }
  rewrite Hrun. cbn [fst snd].
  destruct (NoiseFilter.written _) as [data|] eqn:Hw.
  - rewrite filter_noise_exists; [done|]. rewrite lookup_insert_eq. eauto.
  - rewrite Hrun. cbn [fst snd]. by rewrite ?Hw.
Qed.

(** C2.  With the engine a function of the stage list it is handed, a second
    run of a tile's item leaves the set of destination files as the first
    run left it, in the worker alone and behind the filter of [__main__];
    after a first run that returned a count, and more generally whenever the
    recorded offset has reached the target, the worker returns before it
    calls the engine, moves a file or writes the record.  The noise filter
    run twice leaves the files as one run leaves them, and skips an output
    that exists. *)
Theorem C2_second_run_changes_nothing
    (engine : Download.pipeline_json → Download.engine_run)
    (args : Download.work_args) (dir : Download.tile_dir)
    (noise_engine : string → option string → string → NoiseFilter.engine_run)
    (noise_args : string * string * Z) (fs : gmap string string) :
  let run1 := Download.generate_and_execute_pipeline engine args dir in
  let run2 := Download.generate_and_execute_pipeline engine args (Download.after run1) in
  let noise1 := NoiseFilter.filter_noise noise_engine noise_args fs in
  let noise2 := NoiseFilter.filter_noise noise_engine noise_args noise1.1.2 in
  dom (Download.dst_files (Download.after run2)) = dom (Download.dst_files (Download.after run1)) ∧
  (∀ c, Download.outcome run1 = Download.Count c →
     Download.after run2 = Download.after run1 ∧ Download.events run2 = []) ∧
  (∀ name prev,
     Download.url_name (Download.url (Download.sample args)) = Some name →
     Download.prev_of dir = Some prev →
     Download.num_sample args ≤ prev →
     Download.generate_and_execute_pipeline engine args dir = (Download.Count 0, dir, [])) ∧
  dom (Download.dst_files
         (Download.run_tile engine args (Download.run_tile engine args dir).1).1)
  = dom (Download.dst_files (Download.run_tile engine args dir).1) ∧
  noise2.1.2 = noise1.1.2 ∧
  (is_Some (noise1.1.2 !! noise_args.1.2) → noise2.2 = []).
Proof.
  cbv zeta. split_and!.
  - apply worker_twice.
  - apply worker_twice.
  - intros name prev. apply worker_skip.
  - apply run_tile_twice.
  - apply filter_noise_twice.
  - apply filter_noise_twice.
Qed.

Section PartitionFacts.

Import Download.

Lemma legacy_remaining fs args_list rem :
  Legacy.remaining_args_list fs args_list = inr rem →
  rem `sublist_of` args_list ∧
  ∀ arg, arg ∈ rem ↔ arg ∈ args_list ∧ Legacy.legacy_keeps fs arg.
Proof.
  revert rem. induction args_list as [|a l IH]; intros rem Hrem; simpl in Hrem.
  { simplify_eq. split; [done|]. set_solver. }
  destruct (url_name (url (sample a))) as [name|] eqn:Hname; [|done].
  destruct (log_file (tile_at fs (join (save_root a) name))) as [text|] eqn:Hlog.
  - destruct (Legacy.read_num_sample text) as [prev|] eqn:Hread; [|done].
    destruct (Legacy.remaining_args_list fs l) as [|rem'] eqn:Hrest; [done|].
    destruct (IH rem' eq_refl) as [Hsub Hiff].
    destruct ((prev <? num_sample a) && (prev <? Z.of_nat (length (geometry (sample a)))))
      eqn:Hkeep; simplify_eq.
    + apply andb_prop in Hkeep as [H1%Z.ltb_lt H2%Z.ltb_lt].
      split; [by constructor|]. intros arg. rewrite !elem_of_cons, Hiff.
      split; [intros [->|[? ?]]|intros [[->|?] ?]]; eauto.
      split; [by left|]. exists name. rewrite Hlog. eauto.
    + split; [by constructor|]. intros arg. rewrite elem_of_cons, Hiff.
      split; [intros [? ?]; eauto|intros [[->|?] Hk]; eauto].
      destruct Hk as (name' & Hname' & Hk). simplify_eq. rewrite Hlog in Hk.
      destruct Hk as (prev' & Hread' & H1%Z.ltb_lt & H2%Z.ltb_lt). simplify_eq.
      by rewrite H1, H2 in Hkeep.
  - destruct (Legacy.remaining_args_list fs l) as [|rem'] eqn:Hrest; [done|].
    destruct (IH rem' eq_refl) as [Hsub Hiff]. simplify_eq.
    split; [by constructor|]. intros arg. rewrite !elem_of_cons, Hiff.
    split; [intros [->|[? ?]]|intros [[->|?] ?]]; eauto.
    split; [by left|]. exists name. by rewrite Hlog.
Qed.


Lemma legacy_remaining_total fs args_list :
  (∀ arg, arg ∈ args_list →
     ∃ name, url_name (url (sample arg)) = Some name ∧
       ∀ text, log_file (tile_at fs (join (save_root arg) name)) = Some text →
         is_Some (Legacy.read_num_sample text)) →
  ∃ rem, Legacy.remaining_args_list fs args_list = inr rem.
Proof.
  induction args_list as [|a l IH]; intros Hok; simpl; [eauto|].
  destruct (Hok a ltac:(set_solver)) as (name & -> & Hrec).
  destruct IH as [rem ->]; [intros arg Harg; apply Hok; set_solver|].
  destruct (log_file (tile_at fs (join (save_root a) name))) as [text|]; [|eauto].
  destruct (Hrec text eq_refl) as [prev ->]. eauto.
Qed.


(** C4 (amended).  The root script keeps a tile, in the order of the tile
    list, exactly when it has no record file, or the first field of its
    record is below both the target and the number of polygons; a tile with
    no record is kept whatever those numbers are.  A tile that is not kept
    is passed over, and the loop raises only for a url without a parent
    segment or a record that does not read. *)
Theorem C4_partition_filters (fs : gmap string tile_dir) (args_list : list work_args) :
  (∀ rem, Legacy.remaining_args_list fs args_list = inr rem →
     rem `sublist_of` args_list ∧
     ∀ arg, arg ∈ rem ↔ arg ∈ args_list ∧ Legacy.legacy_keeps fs arg) ∧
  ((∀ arg, arg ∈ args_list →
      ∃ name, url_name (url (sample arg)) = Some name ∧
        ∀ text, log_file (tile_at fs (join (save_root arg) name)) = Some text →
          is_Some (Legacy.read_num_sample text)) →
   ∃ rem, Legacy.remaining_args_list fs args_list = inr rem).
Proof.
  split.
  - intros rem. apply legacy_remaining.
  - apply legacy_remaining_total.
Qed.


End PartitionFacts.

Section CollectFacts.

Import Download.

(** C6 (amended).  A commit rewrites the record file in place: it is opened
    for writing, which empties it, and the text [required,num_downloaded]
    is written into it; no other file is written and nothing is renamed.
    Once the commit has finished the file holds that one record and reads
    back as the two integers. *)
Theorem C6_commit_rewrites_in_place (num_downloaded required : Z) (file : option string) :
  save_txt_ops num_downloaded required
  = [OpenTruncate; WriteText (record_text required num_downloaded)] ∧
  file_states file (save_txt_ops num_downloaded required)
  = [Some EmptyString; Some (record_text required num_downloaded)] ∧
  save_txt num_downloaded required file = Some (record_text required num_downloaded) ∧
  parse_record (record_text required num_downloaded) = Some (required, num_downloaded).
Proof. split_and!; try done. apply parse_record_text. Qed.

(** ** Result collection *)

Lemma collect_no_raise {A R} (async_results : list (A * async_outcome R)) results :
  (∀ a e, (a, Raised e) ∉ async_results) →
  collect async_results results = inr (results ++ map download_entry async_results).
Proof.
  revert results. induction async_results as [|[a o] l IH]; intros results Hno; simpl.
  { by rewrite app_nil_r. }
  assert (∀ a' e, (a', Raised e) ∉ l) as Hl by (intros a' e ?; apply (Hno a' e); by right).
  destruct o as [r|e|].
  - rewrite IH by done. by rewrite <- app_assoc.
  - destruct (Hno a e). by left.
  - rewrite IH by done. by rewrite <- app_assoc.
Qed.

Lemma invalid_collect_handled async_results results :
  (∀ a e, (a, Raised e) ∈ async_results → InvalidFilter.handled e = true) →
  InvalidFilter.collect async_results results
  = inr (results ++ map InvalidFilter.invalid_entry async_results).
Proof.
  revert results. induction async_results as [|[a o] l IH]; intros results Hok; simpl.
  { by rewrite app_nil_r. }
  assert (∀ a' e, (a', Raised e) ∈ l → InvalidFilter.handled e = true) as Hl
    by (intros a' e ?; apply (Hok a'); by right).
  destruct o as [r|e|].
  - rewrite IH by done. by rewrite <- app_assoc.
  - rewrite (Hok a e) by (by left). rewrite IH by done. by rewrite <- app_assoc.
  - rewrite IH by done. by rewrite <- app_assoc.
Qed.

Lemma invalid_collect_unhandled async1 a e async2 results :
  (∀ a' e', (a', Raised e') ∈ async1 → InvalidFilter.handled e' = true) →
  InvalidFilter.handled e = false →
  InvalidFilter.collect (async1 ++ (a, Raised e) :: async2) results = inl e.
Proof.
  revert results. induction async1 as [|[a1 o] l IH]; intros results Hok He; simpl.
  { by rewrite He. }
  assert (∀ a' e', (a', Raised e') ∈ l → InvalidFilter.handled e' = true) as Hl
    by (intros a' e' ?; apply (Hok a'); by right).
  destruct o as [r|e1|]; try by apply IH.
  rewrite (Hok a1 e1) by (by left). by apply IH.
Qed.

(** C7 (amended).  An exception raised by the engine ends the download
    worker with the error message as its return value: no file is moved, no
    record is written, the destination files and the record are as before.
    The download worker returns a value whatever happens, so the collecting
    loop gives one entry per submitted item, [None] for a timeout.  In the
    invalid-tile script a [ValueError], [LaspyException] or [LazrsError]
    raised by a worker becomes a one-element entry, and the loop gives one
    entry per item when no other exception occurs; any other exception
    leaves [run_with_timeout] at the first item that raised it, with no
    result list. *)
Theorem C7_failures_captured :
  (∀ engine args dir p e tr,
     events (generate_and_execute_pipeline engine args dir) = EvExecute p :: tr →
     returned (engine p) = inl e →
     outcome (generate_and_execute_pipeline engine args dir) = ErrorMsg (index args) e ∧
     tr = [] ∧
     dst_files (after (generate_and_execute_pipeline engine args dir)) = dst_files dir ∧
     log_file (after (generate_and_execute_pipeline engine args dir)) = log_file dir) ∧
  (∀ (async_results : list (work_args * async_outcome result)),
     (∀ a e, (a, Raised e) ∉ async_results) →
     run_with_timeout async_results = inr (map download_entry async_results)) ∧
  (∀ async_results,
     (∀ a e, (a, Raised e) ∈ async_results → InvalidFilter.handled e = true) →
     InvalidFilter.run_with_timeout async_results = inr (map InvalidFilter.invalid_entry async_results)) ∧
  (∀ async1 a e async2,
     (∀ a' e', (a', Raised e') ∈ async1 → InvalidFilter.handled e' = true) →
     InvalidFilter.handled e = false →
     InvalidFilter.run_with_timeout (async1 ++ (a, Raised e) :: async2) = inl e).
Proof.
  split_and!.
  - intros engine args dir p e tr. apply engine_failure_aborts.
  - intros async_results Hno. unfold run_with_timeout. by rewrite collect_no_raise.
  - intros async_results Hok. unfold InvalidFilter.run_with_timeout.
    by rewrite invalid_collect_handled.
  - intros async1 a e async2 Hok He. by apply invalid_collect_unhandled.
Qed.

(** ** Destination names *)

Lemma new_name_inj pfx a b : new_name pfx a = new_name pfx b → a = b.
Proof.
  unfold new_name. intros H.
  apply (inj (String.app pfx)) in H. apply (inj (String.app "_")) in H.
  assert (∀ z, head (split "." (py_str z +:+ ".laz")) = Some (py_str z)) as Hhd.
  { intros z. change (py_str z +:+ ".laz") with (py_str z +:+ String "." "laz").
    rewrite split_app_sep; [done|].
    eapply str_forall_impl; [|apply py_str_num_chars].
    intros c Hc. destruct c as [[] [] [] [] [] [] [] []]; by vm_compute in Hc |- *. }
  apply py_str_inj. pose proof (Hhd a) as Ha. rewrite H, Hhd in Ha. congruence.
Qed.

(** C9 (amended).  The destination name is an injective function of the
    local index.  The move is an unconditional rename: a staged file whose
    destination name is taken replaces the file that was there, and the
    loop over a staging directory whose names all carry an index moves
    every file and raises nothing. *)
Theorem C9_rename_replaces :
  (∀ file_prefix prev i j,
     new_name file_prefix (prev + i) = new_name file_prefix (prev + j) → i = j) ∧
  (∀ file_prefix prev dst_path dst_path_temp filename id data
     (dst temp : gmap string string),
     cur_id filename = Some id →
     temp !! filename = Some data →
     move_files file_prefix prev dst_path dst_path_temp [filename] dst temp
     = (None, <[new_name file_prefix (prev + id) := data]> dst, delete filename temp,
        [EvRename (join dst_path_temp filename)
           (join dst_path (new_name file_prefix (prev + id)))])) ∧
  (∀ file_prefix prev dst_path dst_path_temp (dst temp : gmap string string),
     (∀ filename, filename ∈ dom temp → is_Some (cur_id filename)) →
     ∃ dst' tr,
       move_files file_prefix prev dst_path dst_path_temp (sorted_listdir temp) dst temp
       = (None, dst', ∅, tr)).
Proof.
  split_and!.
  - intros pfx prev i j H%new_name_inj. lia.
  - intros pfx prev dp dpt filename id data dst temp Hid Hdata. simpl.
    by rewrite Hid, Hdata.
  - intros pfx prev dp dpt dst temp Hall.
    destruct (move_files pfx prev dp dpt (sorted_listdir temp) dst temp)
      as [[[e dst'] temp'] tr] eqn:Hmv.
    destruct e as [e|].
    + apply move_listed in Hmv as (moved & rest & HL & _ & (bad & rest' & -> & Hbad) & _).
      destruct (Hall bad) as [id Hid]; [|congruence].
      apply sorted_listdir_elem. rewrite HL. set_solver.
    + pose proof (move_listed_all _ _ _ _ _ _ _ _ _ Hmv) as ->. eauto.
Qed.

End CollectFacts.

Section CorrectorFacts.

Import InvalidFilter.

Lemma select_map {A} (f : A → bool) (l : list A) : select l (map f l) = filter f l.
Proof.
  induction l as [|a l IH]; [done|]. simpl. rewrite IH.
  rewrite filter_cons. destruct (f a); by simpl.
Qed.

Lemma mask_sum_map {A} (f : A → bool) (l : list A) :
  mask_sum (map f l) = length (filter f l).
Proof.
  unfold mask_sum. induction l as [|a l IH]; [done|]. simpl.
  rewrite !filter_cons. destruct (f a); simpl; by rewrite IH.
Qed.

Lemma arr_min_is_Some (a : list Q) : a ≠ [] → is_Some (arr_min a).
Proof. destruct a; [done|]. simpl. eauto. Qed.

Lemma arr_max_is_Some (a : list Q) : a ≠ [] → is_Some (arr_max a).
Proof. destruct a; [done|]. simpl. eauto. Qed.

Lemma bigger_mask (axis : las_point → Q) pts lo hi :
  arr_min (map axis pts) = Some lo →
  arr_max (map axis pts) = Some hi →
  ∃ mask,
    return_bigger_tile_mask (map axis pts) = Some mask ∧
    select pts mask
    = if decide (length (at_or_above_center axis ((lo + hi) / 2) pts)
                 ≤ length (below_center axis ((lo + hi) / 2) pts))%nat
      then below_center axis ((lo + hi) / 2) pts
      else at_or_above_center axis ((lo + hi) / 2) pts.
Proof.
  intros Hlo Hhi. unfold return_bigger_tile_mask. rewrite Hlo, Hhi. simpl.
  eexists. split; [done|].
  rewrite !map_map, !mask_sum_map.
  unfold below_center, at_or_above_center.
  destruct (Nat.leb_spec
    (length (filter (λ p, Qle_bool ((lo + hi) / 2) (axis p)) pts))
    (length (filter (λ p, Qlt_bool (axis p) ((lo + hi) / 2)) pts))).
  - rewrite decide_True by done. apply (select_map (λ p, Qlt_bool (axis p) ((lo + hi) / 2))).
  - rewrite decide_False by lia. apply (select_map (λ p, Qle_bool ((lo + hi) / 2) (axis p))).
Qed.

Lemma Qlt_bool_false_iff a b : Qlt_bool a b = false ↔ (b <= a)%Q.
Proof. unfold Qlt_bool. rewrite negb_false_iff. apply Qle_bool_iff. Qed.

Lemma split_partition (axis : las_point → Q) center pts :
  below_center axis center pts ++ at_or_above_center axis center pts ≡ₚ pts.
Proof.
  unfold below_center, at_or_above_center.
  rewrite <- (filter_app_complement (λ p, Qlt_bool (axis p) center) pts) at 3.
  f_equiv. apply reflexive_eq, list_filter_iff. intros p. unfold Qlt_bool.
  destruct (Qle_bool center (axis p)); simpl; naive_solver.
Qed.

(** C5 (amended).  For a tile file that holds at least one point the
    corrector writes exactly one file, at the output path.  When both
    extents are at most 1000 it is the input file unchanged.  Otherwise the
    axis is x when the x extent is at least the y extent, else y; the center
    is (min + max) / 2 along it; the points below the center and the points
    at or above it partition the tile; the part with more points is
    written, the lower one on a tie, under the input's point format and
    version; so the part written is never the smaller one.  A tile of
    extents 1500 and 200 is split along x. *)
Theorem C5_corrector_decision (global_idx tile_path out_root : string)
    (fs : gmap string las_file) (infile : las_file) (region_name tile_name : string) :
  reverse (split "/" tile_path) !! 1%nat = Some region_name →
  reverse (split "/" tile_path) !! 0%nat = Some tile_name →
  fs !! tile_path = Some infile →
  points infile ≠ [] →
  ∃ x_lo x_hi y_lo y_hi,
    arr_min (map x (points infile)) = Some x_lo ∧
    arr_max (map x (points infile)) = Some x_hi ∧
    arr_min (map y (points infile)) = Some y_lo ∧
    arr_max (map y (points infile)) = Some y_hi ∧
    let new_file_path := join (join out_root region_name) tile_name in
    let x_length := (x_hi - x_lo)%Q in
    let y_length := (y_hi - y_lo)%Q in
    let along_x := Qle_bool y_length x_length in
    let axis := if along_x then x else y in
    let center := (if along_x then (x_lo + x_hi) / 2 else (y_lo + y_hi) / 2)%Q in
    let lower := below_center axis center (points infile) in
    let upper := at_or_above_center axis center (points infile) in
    let lower_kept := bool_decide (length upper ≤ length lower)%nat in
    let kept := if lower_kept then lower else upper in
    let dropped := if lower_kept then upper else lower in
    ((x_length <= 1000)%Q ∧ (y_length <= 1000)%Q →
       check_invalid_and_correct (global_idx, tile_path, out_root) fs
       = (inr (Success copied tile_path new_file_path), <[new_file_path := infile]> fs)) ∧
    (¬ ((x_length <= 1000)%Q ∧ (y_length <= 1000)%Q) →
       check_invalid_and_correct (global_idx, tile_path, out_root) fs
       = (inr (Success filtered tile_path new_file_path),
          <[new_file_path :=
              LasFile (point_format infile) (version infile) EmptyString kept]> fs)) ∧
    lower ++ upper ≡ₚ points infile ∧
    (length dropped ≤ length kept)%nat ∧
    ((x_length == 1500)%Q → (y_length == 200)%Q →
       ¬ ((x_length <= 1000)%Q ∧ (y_length <= 1000)%Q) ∧ along_x = true).
Proof.
  intros Hregion Htile Hfile Hpts.
  assert (map x (points infile) ≠ []) as Hxs by (by destruct (points infile)).
  assert (map y (points infile) ≠ []) as Hys by (by destruct (points infile)).
  destruct (arr_min_is_Some _ Hxs) as [x_lo Hxlo], (arr_max_is_Some _ Hxs) as [x_hi Hxhi].
  destruct (arr_min_is_Some _ Hys) as [y_lo Hylo], (arr_max_is_Some _ Hys) as [y_hi Hyhi].
  exists x_lo, x_hi, y_lo, y_hi. cbv zeta. split_and!; try done.
  - intros [Hx Hy]. unfold check_invalid_and_correct.
    rewrite Hregion, Htile, Hfile, Hxlo, Hxhi, Hylo, Hyhi.
    by rewrite (proj2 (Qlt_bool_false_iff _ _) Hx), (proj2 (Qlt_bool_false_iff _ _) Hy).
  - intros Hbig. unfold check_invalid_and_correct.
    rewrite Hregion, Htile, Hfile, Hxlo, Hxhi, Hylo, Hyhi.
    assert (Qlt_bool 1000 (x_hi - x_lo) || Qlt_bool 1000 (y_hi - y_lo) = true) as ->.
    { destruct (Qlt_bool 1000 (x_hi - x_lo)) eqn:Hx; [done|].
      destruct (Qlt_bool 1000 (y_hi - y_lo)) eqn:Hy; [done|].
      destruct Hbig. by split; apply Qlt_bool_false_iff. }
    destruct (Qle_bool (y_hi - y_lo) (x_hi - x_lo)).
    + destruct (bigger_mask x (points infile) x_lo x_hi Hxlo Hxhi) as (mask & -> & ->).
      cbn [laspy_create point_format version header_rest].
      by destruct (decide _); [rewrite bool_decide_eq_true_2|rewrite bool_decide_eq_false_2].
    + destruct (bigger_mask y (points infile) y_lo y_hi Hylo Hyhi) as (mask & -> & ->).
      cbn [laspy_create point_format version header_rest].
      by destruct (decide _); [rewrite bool_decide_eq_true_2|rewrite bool_decide_eq_false_2].
  - apply split_partition.
  - case_bool_decide; lia.
  - intros Hx Hy. split.
    + intros [Hle _]. rewrite Hx in Hle. by apply Qle_bool_iff in Hle.
    + apply Qle_bool_iff. rewrite Hx, Hy. by apply Qle_bool_iff.
Qed.

End CorrectorFacts.

(** * Further properties of the scripts *)

Section WorkerMore.

Import Download.

Variable engine : pipeline_json → engine_run.


















End WorkerMore.

Section RecordMore.

Import Download.








End RecordMore.

Section FilterMore.

Import Download.


End FilterMore.

Section NoiseMore.


End NoiseMore.

Section CorrectorMore.

Import InvalidFilter.

























End CorrectorMore.

(** * The claims at concrete inputs *)

Section Instances.

Import Download Examples.

(** C1, counterexample.  The record [5,3] has 0 < completed < required, yet
    the read returns 5, not 3, and a run with target 5 calls the engine for
    no polygon at all, not for the range [3, 5). *)
Lemma C1_counterexample :
  parse_record "5,3" = Some (5, 3) ∧
  read_num_sample "5,3" = Some 5 ∧
  read_num_sample "5,3" ≠ Some 3 ∧
  requests (events (generate_and_execute_pipeline engine_ok (args_a 5) dir_5_3)) = [] ∧
  requests (events (generate_and_execute_pipeline engine_ok (args_a 5) dir_5_3))
  ≠ [py_slice (geometry tile_a) 3 5].
Proof. split_and!; by vm_compute. Qed.

(** The commit is a recount, not a sum: with [tile_1.laz] and [tile_9.laz]
    at the destination and five files staged, one of which replaces
    [tile_1.laz], the record says 6, neither 0 + 5 nor 2 + 5. *)
Lemma recount_is_not_a_sum :
  num_laz (<["tile_9.laz" := "old"]> (dst_files dir_taken)) = 2 ∧
  log_file (after (generate_and_execute_pipeline engine_ok (args_a 5)
              (TileDir (<["tile_9.laz" := "old"]> (dst_files dir_taken)) None None)))
  = Some "5,6".
Proof. split; by vm_compute. Qed.

(** C4, counterexample.  Tile B has no record and no polygon: its offset 0
    is not below its number of polygons, yet the root script keeps it. *)
Lemma C4_counterexample :
  Legacy.remaining_args_list ∅ [args_b 5] = inr [args_b 5] ∧
  log_file (tile_at ∅ "/data/USGS_LPC_B") = None ∧
  ¬ (0 < Z.of_nat (length (geometry (sample (args_b 5))))).
Proof. split_and!; by vm_compute. Qed.

(** Tile A is recorded at [3,3], below the target 5 and below its eight
    polygons: the root script keeps it, the script under download/ does
    not. *)
Lemma download_filter_drops_recorded_tile :
  Legacy.remaining_args_list fs_a_3_3 [args_a 5] = inr [args_a 5] ∧
  Download.remaining_args_list fs_a_3_3 [args_a 5] = inr [] ∧
  log_file (tile_at fs_a_3_3 "/data/USGS_LPC_A") ≫= read_num_sample = Some 3 ∧
  3 < num_sample (args_a 5) ∧
  3 < Z.of_nat (length (geometry (sample (args_a 5)))).
Proof. split_and!; by vm_compute. Qed.

(** C5, counterexample.  For a tile file without points the corrector raises
    a [ValueError] and writes no file. *)
Lemma C5_counterexample :
  InvalidFilter.check_invalid_and_correct corrector_args
    {["/raw/USGS_LPC_A/tile_1.laz" := empty_tile]}
  = (inl (Exn ValueError "zero-size array to reduction operation"),
     {["/raw/USGS_LPC_A/tile_1.laz" := empty_tile]}).
Proof. by vm_compute. Qed.

(** C6, counterexample.  While the record [5,2] is replaced by [5,3] the file
    is empty for a moment, and an empty file does not read as a record. *)
Lemma C6_counterexample :
  file_states (Some "5,2") (save_txt_ops 3 5) = [Some ""; Some "5,3"] ∧
  parse_record "5,2" = Some (5, 2) ∧
  parse_record "" = None.
Proof. split_and!; by vm_compute. Qed.

(** C7, counterexample.  A missing input makes the corrector raise an
    [OSError]; collected first of two items, it leaves [run_with_timeout]
    with no result list, the second item's result included. *)
Lemma C7_counterexample :
  InvalidFilter.check_invalid_and_correct corrector_args ∅
  = (inl (Exn OSError "No such file or directory"), ∅) ∧
  InvalidFilter.run_with_timeout
    [(corrector_args, Raised (Exn OSError "No such file or directory"));
     (corrector_args2,
      Ready (InvalidFilter.Success InvalidFilter.copied "/raw/USGS_LPC_A/tile_2.laz"
               "/processed/USGS_LPC_A/tile_2.laz"))]
  = inl (Exn OSError "No such file or directory").
Proof. split; by vm_compute. Qed.

(** C9, counterexample.  The destination holds [tile_1.laz]; the worker moves
    the staged [tile_1.laz] over it and returns its count. *)
Lemma C9_counterexample :
  dst_files dir_taken !! "tile_1.laz" = Some "old" ∧
  outcome (generate_and_execute_pipeline engine_ok (args_a 5) dir_taken) = Count 500 ∧
  dst_files (after (generate_and_execute_pipeline engine_ok (args_a 5) dir_taken))
    !! "tile_1.laz" = Some "P0" ∧
  num_laz (dst_files (after (generate_and_execute_pipeline engine_ok (args_a 5) dir_taken)))
  = 5.
Proof. split_and!; by vm_compute. Qed.

(** C10, counterexample.  After a failed dispatch [temp_download] still
    holds the file the engine left, and the next dispatch moves that file
    into the destination; after a successful one the directory is still
    there, empty. *)
Lemma C10_counterexample :
  temp_download (after (generate_and_execute_pipeline engine_flaky (args_a 5) empty_dir))
  = Some {["tile_1.laz" := "partial"]} ∧
  dst_files (after (generate_and_execute_pipeline engine_flaky (args_a 6)
     (after (generate_and_execute_pipeline engine_flaky (args_a 5) empty_dir))))
  = {["tile_1.laz" := "partial"]} ∧
  temp_download (after (generate_and_execute_pipeline engine_ok (args_a 5) empty_dir))
  = Some ∅.
Proof. split_and!; by vm_compute. Qed.

(** C1, witness: tile A with the record [5,3] and the target 8. *)
Lemma C1_witness :
  url_name (url (sample (args_a 8))) = Some "USGS_LPC_A" ∧
  prev_of dir_5_3 = Some 5 ∧
  0 ≤ 5 < num_sample (args_a 8) ∧
  ∃ p rest,
    events (generate_and_execute_pipeline engine_ok (args_a 8) dir_5_3) = EvExecute p :: rest ∧
    reader_polygon p = ["P5"; "P6"; "P7"] ∧
    crop_polygon p = ["P5"; "P6"; "P7"].
Proof.
  assert (url_name (url (sample (args_a 8))) = Some "USGS_LPC_A") as Hname by reflexivity.
  assert (prev_of dir_5_3 = Some 5) as Hprev by reflexivity.
  assert (0 ≤ 5 < num_sample (args_a 8)) as Hrange by (simpl; lia).
  split; [exact Hname|]. split; [exact Hprev|]. split; [exact Hrange|].
  destruct (C1_resume_from_recorded_target engine_ok (args_a 8) dir_5_3 "USGS_LPC_A" 5
              Hname Hprev Hrange) as (_ & _ & _ & p & rest & Hev & _ & Hreader & Hcrop).
  exists p, rest. split_and!; [exact Hev|exact Hreader|by rewrite Hcrop, Hreader].
Defined.

(** C2, witness: tile A, target 5, run twice from an empty directory. *)
Lemma C2_witness :
  outcome (generate_and_execute_pipeline engine_ok (args_a 5) empty_dir) = Count 500 ∧
  after (generate_and_execute_pipeline engine_ok (args_a 5)
           (after (generate_and_execute_pipeline engine_ok (args_a 5) empty_dir)))
  = after (generate_and_execute_pipeline engine_ok (args_a 5) empty_dir) ∧
  events (generate_and_execute_pipeline engine_ok (args_a 5)
            (after (generate_and_execute_pipeline engine_ok (args_a 5) empty_dir))) = [].
Proof.
  assert (outcome (generate_and_execute_pipeline engine_ok (args_a 5) empty_dir) = Count 500)
    as Hout by (vm_compute; reflexivity).
  split; [exact Hout|].
  destruct (C2_second_run_changes_nothing engine_ok (args_a 5) empty_dir
              noise_engine noise_args noise_fs) as (_ & Hsame & _).
  exact (Hsame 500 Hout).
Defined.

(** C3, witness: tile A with the record [5,3] and the target 8. *)
Lemma C3_witness :
  EvSaveTxt 6 8 ∈ events (generate_and_execute_pipeline engine_ok (args_a 8) dir_5_3) ∧
  6 = num_laz (dst_files (after (generate_and_execute_pipeline engine_ok (args_a 8) dir_5_3))) ∧
  log_file (after (generate_and_execute_pipeline engine_ok (args_a 8) dir_5_3)) ≫= parse_record
  = Some (8, 6).
Proof.
  assert (EvSaveTxt 6 8 ∈ events (generate_and_execute_pipeline engine_ok (args_a 8) dir_5_3))
    as Hin by (vm_compute; do 4 apply list_elem_of_further; apply list_elem_of_here).
  split; [exact Hin|].
  destruct (C3_commit_is_recount engine_ok (args_a 8) dir_5_3) as (Hcommit & _).
  destruct (Hcommit 6 8 Hin) as (Hn & _ & Hlog).
  split; [exact Hn|]. rewrite Hlog, <- Hn. reflexivity.
Defined.

(** C4, witness: tile A recorded at [3,3], tile B without a record. *)
Lemma C4_witness :
  Legacy.remaining_args_list fs_a_3_3 [args_a 5; args_a 3; args_b 5]
  = inr [args_a 5; args_b 5] ∧
  [args_a 5; args_b 5] `sublist_of` [args_a 5; args_a 3; args_b 5] ∧
  (args_a 3 ∈ [args_a 5; args_b 5] ↔
   args_a 3 ∈ [args_a 5; args_a 3; args_b 5] ∧ Legacy.legacy_keeps fs_a_3_3 (args_a 3)).
Proof.
  assert (Legacy.remaining_args_list fs_a_3_3 [args_a 5; args_a 3; args_b 5]
          = inr [args_a 5; args_b 5]) as Hlegacy by (vm_compute; reflexivity).
  destruct (C4_partition_filters fs_a_3_3 [args_a 5; args_a 3; args_b 5]) as (HL & _).
  split_and!; [exact Hlegacy|exact (proj1 (HL _ Hlegacy))|exact (proj2 (HL _ Hlegacy) _)].
Defined.

(** C5, witness: a tile 1500 wide and 200 high. *)
Lemma C5_witness :
  reverse (split "/" "/raw/USGS_LPC_A/tile_1.laz") !! 1%nat = Some "USGS_LPC_A" ∧
  reverse (split "/" "/raw/USGS_LPC_A/tile_1.laz") !! 0%nat = Some "tile_1.laz" ∧
  ({["/raw/USGS_LPC_A/tile_1.laz" := wide_tile]} : gmap string InvalidFilter.las_file)
    !! "/raw/USGS_LPC_A/tile_1.laz" = Some wide_tile ∧
  InvalidFilter.points wide_tile ≠ [] ∧
  InvalidFilter.check_invalid_and_correct corrector_args
    {["/raw/USGS_LPC_A/tile_1.laz" := wide_tile]}
  = (inr (InvalidFilter.Success InvalidFilter.filtered "/raw/USGS_LPC_A/tile_1.laz"
            "/processed/USGS_LPC_A/tile_1.laz"),
     <["/processed/USGS_LPC_A/tile_1.laz" :=
         InvalidFilter.LasFile 6 "1.4" "" [pt 0 0; pt 100 50; pt 200 100]]>
       {["/raw/USGS_LPC_A/tile_1.laz" := wide_tile]}).
Proof.
  assert (reverse (split "/" "/raw/USGS_LPC_A/tile_1.laz") !! 1%nat = Some "USGS_LPC_A")
    as Hregion by reflexivity.
  assert (reverse (split "/" "/raw/USGS_LPC_A/tile_1.laz") !! 0%nat = Some "tile_1.laz")
    as Htile by reflexivity.
  assert (({["/raw/USGS_LPC_A/tile_1.laz" := wide_tile]} : gmap string InvalidFilter.las_file)
            !! "/raw/USGS_LPC_A/tile_1.laz" = Some wide_tile) as Hfile
    by (vm_compute; reflexivity).
  assert (InvalidFilter.points wide_tile ≠ []) as Hpts by discriminate.
  split; [exact Hregion|]. split; [exact Htile|]. split; [exact Hfile|]. split; [exact Hpts|].
  destruct (C5_corrector_decision "1/2" "/raw/USGS_LPC_A/tile_1.laz" "/processed"
              {["/raw/USGS_LPC_A/tile_1.laz" := wide_tile]} wide_tile
              "USGS_LPC_A" "tile_1.laz" Hregion Htile Hfile Hpts)
    as (x_lo & x_hi & y_lo & y_hi & Hxlo & Hxhi & Hylo & Hyhi & _ & Hsplit & _).
  vm_compute in Hxlo, Hxhi, Hylo, Hyhi.
  injection Hxlo as <-. injection Hxhi as <-. injection Hylo as <-. injection Hyhi as <-.
  unfold corrector_args. rewrite Hsplit.
  - vm_compute. reflexivity.
  - intros [Hx _]. apply Qle_bool_iff in Hx. vm_compute in Hx. discriminate Hx.
Defined.

(** C7, witness: the engine raises on the first dispatch of tile A. *)
Lemma C7_witness :
  returned (engine_flaky
    (update_pipeline tile_a (geometry tile_a) 0 5 "/data/USGS_LPC_A/temp_download" "tile"))
  = inl (Exn RuntimeError "readers.ept: timeout") ∧
  outcome (generate_and_execute_pipeline engine_flaky (args_a 5) empty_dir)
  = ErrorMsg 0 (Exn RuntimeError "readers.ept: timeout") ∧
  dst_files (after (generate_and_execute_pipeline engine_flaky (args_a 5) empty_dir)) = ∅ ∧
  log_file (after (generate_and_execute_pipeline engine_flaky (args_a 5) empty_dir)) = None.
Proof.
  assert (returned (engine_flaky
            (update_pipeline tile_a (geometry tile_a) 0 5 "/data/USGS_LPC_A/temp_download" "tile"))
          = inl (Exn RuntimeError "readers.ept: timeout")) as Hret by reflexivity.
  split; [exact Hret|].
  destruct C7_failures_captured as (Habort & _).
  destruct (Habort engine_flaky (args_a 5) empty_dir
              (update_pipeline tile_a (geometry tile_a) 0 5 "/data/USGS_LPC_A/temp_download" "tile")
              (Exn RuntimeError "readers.ept: timeout") [])
    as (Hout & _ & Hdst & Hlog); [vm_compute; reflexivity|exact Hret|].
  split_and!; [exact Hout|exact Hdst|exact Hlog].
Defined.

(** C9, witness: one staged file whose destination name is taken. *)
Lemma C9_witness :
  cur_id "tile_1.laz" = Some 1 ∧
  ({["tile_1.laz" := "new"]} : gmap string string) !! "tile_1.laz" = Some "new" ∧
  move_files "tile" 0 "/data/USGS_LPC_A" "/data/USGS_LPC_A/temp_download" ["tile_1.laz"]
    {["tile_1.laz" := "old"]} {["tile_1.laz" := "new"]}
  = (None, <[new_name "tile" (0 + 1) := "new"]> {["tile_1.laz" := "old"]},
     delete "tile_1.laz" {["tile_1.laz" := "new"]},
     [EvRename (join "/data/USGS_LPC_A/temp_download" "tile_1.laz")
        (join "/data/USGS_LPC_A" (new_name "tile" (0 + 1)))]).
Proof.
  assert (cur_id "tile_1.laz" = Some 1) as Hid by reflexivity.
  assert (({["tile_1.laz" := "new"]} : gmap string string) !! "tile_1.laz" = Some "new")
    as Hdata by (vm_compute; reflexivity).
  split; [exact Hid|]. split; [exact Hdata|].
  destruct C9_rename_replaces as (_ & Hmove & _).
  exact (Hmove "tile" 0 "/data/USGS_LPC_A" "/data/USGS_LPC_A/temp_download" "tile_1.laz" 1
           "new" {["tile_1.laz" := "old"]} {["tile_1.laz" := "new"]} Hid Hdata).
Defined.

(** C10, witness: tile A, target 5, from an empty directory, with an engine
    that returns and with one that raises after its first file. *)
Lemma C10_witness :
  events (generate_and_execute_pipeline engine_ok (args_a 5) empty_dir) ≠ [] ∧
  events (generate_and_execute_pipeline engine_flaky (args_a 5) empty_dir) ≠ [] ∧
  temp_download (after (generate_and_execute_pipeline engine_ok (args_a 5) empty_dir))
  = Some ∅ ∧
  ∃ staged,
    temp_download (after (generate_and_execute_pipeline engine_flaky (args_a 5) empty_dir))
    = Some staged ∧
    staged !! "tile_1.laz" = Some "partial".
Proof.
  assert (events (generate_and_execute_pipeline engine_ok (args_a 5) empty_dir) ≠ [])
    as Hok by (vm_compute; discriminate).
  assert (events (generate_and_execute_pipeline engine_flaky (args_a 5) empty_dir) ≠ [])
    as Hflaky by (vm_compute; discriminate).
  split; [exact Hok|]. split; [exact Hflaky|].
  destruct (C10_staging_left_in_place engine_ok (args_a 5) empty_dir Hok)
    as (staged & Hdir & Hcount & _).
  destruct (C10_staging_left_in_place engine_flaky (args_a 5) empty_dir Hflaky)
    as (staged' & Hdir' & _ & Hfail).
  split.
  - rewrite Hdir. f_equal. apply (Hcount 500). vm_compute. reflexivity.
  - exists staged'. split; [exact Hdir'|].
    destruct (Hfail
      (update_pipeline tile_a (geometry tile_a) 0 5 "/data/USGS_LPC_A/temp_download" "tile")
      [] ltac:(vm_compute; reflexivity)) as (_ & Hraised).
    destruct (Hraised (Exn RuntimeError "readers.ept: timeout") eq_refl) as (_ & Hkept).
    apply Hkept. vm_compute. reflexivity.
Defined.















End Instances.
